(** * webviz-dev-sync: the package lifecycle manager

    A shallow embedding of [src/webviz_dev_sync/_package_manager.py]
    ([get_dist_egg_link] and the class [PackageManager]) and the properties
    of its checkout, install, build and link queries.

    Layout:
    - [PyStr]: the Python string operations the module uses
      ([in], [split], indexing and slicing, [os.path.join]);
    - the exceptions, the environment the module acts on (file system,
      clock, git working trees, GitHub, installed distributions), the
      timestamp cache and an event trace of every action performed;
    - a state-and-exception monad in which the methods are written
      statement by statement;
    - the methods of [PackageManager];
    - the properties.

    Timestamps, floating-point seconds in the module, are integers here
    (clock ticks): the module only compares them. *)

From Stdlib Require Import ZArith String Ascii List Bool Lia.
From stdpp Require Import base option list gmap strings.

Open Scope string_scope.
Open Scope Z_scope.

(** ** Python strings *)

Module PyStr.

(** [sub in s] *)
Fixpoint contains (sub s : string) : bool :=
  String.prefix sub s ||
  match s with
  | EmptyString => false
  | String _ s' => contains sub s'
  end.

(** [s.split(sep)] for a non-empty separator: a left-to-right scan for
    non-overlapping occurrences of [sep].  [skip] counts the characters of
    an occurrence still to be passed over and [cur] holds the characters of
    the current piece, last one first. *)
Fixpoint split_go (sep s : string) (skip : nat) (cur : list ascii)
  : list string :=
  match s with
  | EmptyString => [string_of_list_ascii (rev cur)]
  | String c s' =>
      match skip with
      | S k => split_go sep s' k cur
      | O =>
          if String.prefix sep s
          then string_of_list_ascii (rev cur)
                 :: split_go sep s' (Nat.pred (String.length sep)) []
          else split_go sep s' O (c :: cur)
      end
  end.

Definition split (sep s : string) : list string := split_go sep s O [].

(** the first [n] characters *)
Fixpoint take (n : nat) (s : string) : string :=
  match n, s with
  | S k, String c s' => String c (take k s')
  | _, _ => EmptyString
  end.

(** [s[0 : j]]: a negative [j] counts from the end *)
Definition slice_to (s : string) (j : Z) : string :=
  let n := Z.of_nat (String.length s) in
  take (Z.to_nat (if j <? 0 then j + n else j)) s.

(** [s[i]] on an integer index: a negative index counts from the end, and
    an index outside the string is Python's [IndexError], here [None]. *)
Definition index (s : string) (i : Z) : option ascii :=
  let n := Z.of_nat (String.length s) in
  let j := if i <? 0 then i + n else i in
  if (j <? 0) || (n <=? j) then None else String.get (Z.to_nat j) s.

(** [s.startswith(p)] *)
Definition startswith (s p : string) : bool := String.prefix p s.

Definition last_is_slash (s : string) : bool :=
  match String.get (Nat.pred (String.length s)) s with
  | Some c => Ascii.eqb c "/"
  | None => false
  end.

(** [os.path.join(a, b)] on POSIX paths *)
Definition path_join (a b : string) : string :=
  if startswith b "/" then b
  else if String.eqb a "" || last_is_slash a then a ++ b
  else a ++ "/" ++ b.

(** The text before the last slash of [s], when [s] has a slash. *)
Fixpoint parent_go (s : string) : option string :=
  match s with
  | EmptyString => None
  | String c s' =>
      match parent_go s' with
      | Some r => Some (String c r)
      | None => if Ascii.eqb c "/" then Some EmptyString else None
      end
  end.

(** [Path(p).parent] as a text: the path before the last slash, the root
    for a name directly under it, the current directory for a bare name. *)
Definition parent (p : string) : string :=
  match parent_go p with
  | None => "."
  | Some EmptyString => "/"
  | Some r => r
  end.

End PyStr.

(** ** Exceptions and results *)

Inductive Exn : Type :=
| MissingPackageInConfigFile (name : string)
| NotImplementedError
| AttributeError (attr : string)
| KeyError (key : string)
| IndexError
| TypeError
| InvalidGitRepositoryError (path : string)
| NoSuchPathError (path : string)
| GitCommandError (cmd : string)
| GithubException (repository : string)
| DistributionNotFound (name : string)
| FileNotFoundError (path : string)
| FileExistsError (path : string)
| NotADirectoryError (path : string)
| CalledProcessError (cmd : list string).

Inductive Result (A : Type) : Type :=
| Ok (a : A)
| Raise (e : Exn).
Arguments Ok {A} a.
Arguments Raise {A} e.

Definition is_ok {A} (r : Result A) : bool :=
  match r with Ok _ => true | Raise _ => false end.

(** ** Configuration

    A package descriptor is the dictionary [ConfigFile().get_package(name)]
    returns.  Its entries are a string ([local_path]), a boolean
    ([link_package]) or a nested dictionary of strings ([github_branch],
    with [repository] and [branch]). *)

Inductive CfgVal : Type :=
| VStr (s : string)
| VBool (b : bool)
| VDict (d : gmap string string).

Record ConfigFile : Type := {
  packages : gmap string (gmap string CfgVal);
  repo_storage_directory : option string;
  github_access_token : string;
}.

(** ** The environment *)

(** A git working tree: its remotes in the order they were added, as
    (name, url); its remote-tracking refs as (remote, branch); and what is
    checked out. *)
Record Repo : Type := {
  remotes : list (string * string);
  refs : list (string * string);
  head : option string;
}.

(** [pkg_resources.Distribution], as far as the module reads it. *)
Record Distribution : Type := { project_name : string }.

Record Env : Type := {
  platform : string;                       (* sys.platform *)
  sys_path : list string;                  (* sys.path *)
  files : gset string;                     (* regular files *)
  dirs : gset string;                      (* directories *)
  mtimes : gmap string Z;                  (* os.path.getmtime, by path *)
  clock : Z;                               (* the current time *)
  working_set : gmap string Distribution;  (* installed distributions *)
  repos : gmap string Repo;                (* git working trees, by path *)
  hosts : gmap string (list string);       (* clone url -> branches served *)
  github : gmap string string;             (* repository id -> clone url *)
  config_file : ConfigFile;
}.

Definition set_files (f : gset string) (e : Env) : Env :=
  {| platform := platform e; sys_path := sys_path e; files := f;
     dirs := dirs e; mtimes := mtimes e; clock := clock e;
     working_set := working_set e; repos := repos e; hosts := hosts e;
     github := github e; config_file := config_file e |}.

Definition set_dirs (d : gset string) (e : Env) : Env :=
  {| platform := platform e; sys_path := sys_path e; files := files e;
     dirs := d; mtimes := mtimes e; clock := clock e;
     working_set := working_set e; repos := repos e; hosts := hosts e;
     github := github e; config_file := config_file e |}.

Definition set_repos (r : gmap string Repo) (e : Env) : Env :=
  {| platform := platform e; sys_path := sys_path e; files := files e;
     dirs := dirs e; mtimes := mtimes e; clock := clock e;
     working_set := working_set e; repos := r; hosts := hosts e;
     github := github e; config_file := config_file e |}.

Definition set_mtimes (m : gmap string Z) (e : Env) : Env :=
  {| platform := platform e; sys_path := sys_path e; files := files e;
     dirs := dirs e; mtimes := m; clock := clock e;
     working_set := working_set e; repos := repos e; hosts := hosts e;
     github := github e; config_file := config_file e |}.

Definition set_github (g : gmap string string) (e : Env) : Env :=
  {| platform := platform e; sys_path := sys_path e; files := files e;
     dirs := dirs e; mtimes := mtimes e; clock := clock e;
     working_set := working_set e; repos := repos e; hosts := hosts e;
     github := g; config_file := config_file e |}.

(** ** The timestamp cache *)

(** Modelled from the spec: the class [Cache] of [_cache.py], which the
    module imports and which is not among the sources.  A record of three
    timestamps per key (package name, is-local flag); a key that was never
    written reads as the zero timestamp; a store writes the current time
    into one field of the key's record and leaves the others as they are. *)
Record CacheRecord : Type := {
  modifiedAt : Z;
  installedAt : Z;
  builtAt : Z;
}.

Definition zero_record : CacheRecord :=
  {| modifiedAt := 0; installedAt := 0; builtAt := 0 |}.

Definition cache_record (c : gmap (string * bool) CacheRecord)
    (name : string) (is_local : bool) : CacheRecord :=
  default zero_record (c !! (name, is_local)).

Definition get_package_modified_timestamp
    (c : gmap (string * bool) CacheRecord) (name : string) (is_local : bool)
  : Z := modifiedAt (cache_record c name is_local).

Definition get_package_build_timestamp
    (c : gmap (string * bool) CacheRecord) (name : string) (is_local : bool)
  : Z := builtAt (cache_record c name is_local).

Definition store_package_modified_timestamp
    (c : gmap (string * bool) CacheRecord) (name : string) (is_local : bool)
    (now : Z) : gmap (string * bool) CacheRecord :=
  let r := cache_record c name is_local in
  <[(name, is_local) :=
      {| modifiedAt := now; installedAt := installedAt r;
         builtAt := builtAt r |}]> c.

Definition store_package_built_timestamp
    (c : gmap (string * bool) CacheRecord) (name : string) (is_local : bool)
    (now : Z) : gmap (string * bool) CacheRecord :=
  let r := cache_record c name is_local in
  <[(name, is_local) :=
      {| modifiedAt := modifiedAt r; installedAt := installedAt r;
         builtAt := now |}]> c.

(** ** Events and the world *)

(** Every action the module performs on its surroundings is recorded, in
    the order performed. *)
Inductive Event : Type :=
| EvLog (msg : string)
| EvExec (cmd : list string) (cwd : string)
| EvCheckOutput (cmd : list string) (cwd : string)
| EvRemove (file : string)
| EvMkdir (dir : string)
| EvGithubOpenRepo (repository : string)
| EvGithubCloneUrl (repository : string)
| EvGitClone (url dir : string)
| EvGitRemoteAdd (dir name url : string)
| EvGitRemoteRename (dir old new : string)
| EvGitFetch (dir name : string)
| EvGitCheckout (dir ref : string)
| EvInstallRoutine (name : string)
| EvBuildRoutine (name : string).

Definition is_install_routine (ev : Event) : bool :=
  match ev with EvInstallRoutine _ => true | _ => false end.

Definition is_build_routine (ev : Event) : bool :=
  match ev with EvBuildRoutine _ => true | _ => false end.

Definition is_remove (ev : Event) : bool :=
  match ev with EvRemove _ => true | _ => false end.

Definition count_events (p : Event → bool) (t : list Event) : nat :=
  length (List.filter p t).

Record World : Type := {
  env : Env;
  cache : gmap (string * bool) CacheRecord;
  trace : list Event;
}.

(** ** The monad of methods: state and exceptions

    A statement maps the world to a result and the world it leaves; after an
    exception the world keeps what was done before it was raised. *)

Definition M (A : Type) : Type := World → Result A * World.

Definition ret {A} (a : A) : M A := λ w, (Ok a, w).

Definition bind {A B} (m : M A) (f : A → M B) : M B := λ w,
  match m w with
  | (Ok a, w') => f a w'
  | (Raise e, w') => (Raise e, w')
  end.

Notation "x <- y ;; z" := (bind y (λ x, z))
  (at level 61, y at level 60, z at level 200, only parsing).

(** [pass] *)
Definition pass : M unit := ret ().

Definition raise {A} (e : Exn) : M A := λ w, (Raise e, w).

Definition emit (ev : Event) : M unit := λ w,
  (Ok (), {| env := env w; cache := cache w; trace := trace w ++ [ev] |}).

Definition get_env : M Env := λ w, (Ok (env w), w).

Definition put_env (e : Env) : M unit := λ w,
  (Ok (), {| env := e; cache := cache w; trace := trace w |}).

Definition get_cache : M (gmap (string * bool) CacheRecord) := λ w,
  (Ok (cache w), w).

Definition put_cache (c : gmap (string * bool) CacheRecord) : M unit := λ w,
  (Ok (), {| env := env w; cache := c; trace := trace w |}).

(** An action of the surroundings on the environment alone. *)
Definition lift_env {A} (f : Env → Result A * Env) : M A := λ w,
  let '(r, e) := f (env w) in
  (r, {| env := e; cache := cache w; trace := trace w |}).

Definition of_option {A} (o : option A) (e : Exn) : M A :=
  match o with Some a => ret a | None => raise e end.

(** [try: body except <handles>: handler] *)
Definition try_except {A} (body : M A) (handles : Exn → bool)
    (handler : M A) : M A := λ w,
  match body w with
  | (Raise e, w') => if handles e then handler w' else (Raise e, w')
  | r => r
  end.

(** [for x in l: body] *)
Fixpoint for_each {A} (l : list A) (body : A → M unit) : M unit :=
  match l with
  | [] => pass
  | x :: l' => _ <- body x;; for_each l' body
  end.

(** [d[k]] *)
Definition getitem {V} (d : gmap string V) (k : string) : M V :=
  of_option (d !! k) (KeyError k).

Definition log_message (msg : string) : M unit := emit (EvLog msg).

Definition nl : string := String "010" EmptyString.

(** ** The objects *)

(** Modelled from the spec: the class [GithubManager] of
    [_github_manager.py], which is not among the sources.  Given a
    repository identifier it returns a clone URL: [open_repo] selects the
    repository, [get_clone_url] resolves the selected one. *)
Record GithubManager : Type := {
  token : string;
  opened : option string;
}.

(** A [PackageManager] instance.  An attribute of type [option] that is
    [None] holds Python's [None], except [_path]: the constructor assigns
    [self._path] on two of its three branches only, and [None] here stands
    for an attribute that was never assigned.  [self._cache] is a handle on
    the one persistent store, the [cache] of the world. *)
Record PackageManager : Type := {
  _name : string;
  _config : option (gmap string CfgVal);
  _github_manager : option GithubManager;
  _repo : option string;
  _branch : option string;
  _path : option string;
}.

Definition set_path (p : string) (self : PackageManager) : PackageManager :=
  {| _name := _name self; _config := _config self;
     _github_manager := _github_manager self; _repo := _repo self;
     _branch := _branch self; _path := Some p |}.

Definition set_github_manager (g : GithubManager) (self : PackageManager)
  : PackageManager :=
  {| _name := _name self; _config := _config self;
     _github_manager := Some g; _repo := _repo self;
     _branch := _branch self; _path := _path self |}.

Definition set_repo (r : string) (self : PackageManager) : PackageManager :=
  {| _name := _name self; _config := _config self;
     _github_manager := _github_manager self; _repo := Some r;
     _branch := _branch self; _path := _path self |}.

(** The three hooks a package kind overrides.  A hook receives the instance
    and acts on the environment; the cache and the trace are out of its
    reach. *)
Record Strategy : Type := {
  execute_package_specific_installation_routine :
    PackageManager → Env → Result unit * Env;
  execute_package_specific_build_routine :
    PackageManager → Env → Result unit * Env;
  get_build_timestamp : PackageManager → Env → Result Z;
}.

(** The hooks as [PackageManager] itself defines them. *)
Definition base_strategy : Strategy :=
  {| execute_package_specific_installation_routine :=
       λ _ e, (Raise NotImplementedError, e);
     execute_package_specific_build_routine :=
       λ _ e, (Raise NotImplementedError, e);
     get_build_timestamp := λ _ _, Raise NotImplementedError |}.

(** [exec] and [check_output] of [_exec.py], which is not among the sources:
    they run a command in a working directory.  [check_output] gives the
    text [str(...)] makes of the captured output. *)
Record Shell : Type := {
  exec : list string → string → Env → Result unit * Env;
  check_output : list string → string → Env → Result string;
}.

(** ** The file system, pkg_resources, GitHub and git *)

Definition path_exists (p : string) : M bool :=
  e <- get_env;; ret (bool_decide (p ∈ files e) || bool_decide (p ∈ dirs e)).


Definition isfile (p : string) : M bool :=
  e <- get_env;; ret (bool_decide (p ∈ files e)).

(** The path is a directory; the root and the current directory always
    are. *)
Definition is_directory (p : string) (e : Env) : bool :=
  bool_decide (p ∈ dirs e) || String.eqb p "/" || String.eqb p ".".

(** [Path.mkdir()], without [parents=True]: the path must not be there and
    its parent must be a directory ([FileNotFoundError] when the parent is
    missing, [NotADirectoryError] when it is a file).  The new directory
    and its parent are modified at the time of the call. *)
Definition mkdir (p : string) : M unit :=
  _ <- emit (EvMkdir p);;
  ex <- path_exists p;;
  if ex then raise (FileExistsError p)
  else
    e <- get_env;;
    if is_directory (PyStr.parent p) e then
      put_env
        (set_mtimes
           (<[p := clock e]> (<[PyStr.parent p := clock e]> (mtimes e)))
           (set_dirs ({[p]} ∪ dirs e) e))
    else if bool_decide (PyStr.parent p ∈ files e)
    then raise (NotADirectoryError p)
    else raise (FileNotFoundError p).

(** [os.remove(f)] *)
Definition os_remove (f : string) : M unit :=
  _ <- emit (EvRemove f);;
  e <- get_env;;
  if bool_decide (f ∈ files e) then put_env (set_files (files e ∖ {[f]}) e)
  else raise (FileNotFoundError f).

(** [os.path.getmtime(p)] *)
Definition getmtime (p : string) : M Z :=
  e <- get_env;; of_option (mtimes e !! p) (FileNotFoundError p).

(** [pkg_resources.get_distribution(name)]: the installed distribution of
    that name, [DistributionNotFound] when there is none. *)
Definition get_distribution (name : string) : M Distribution :=
  e <- get_env;; of_option (working_set e !! name) (DistributionNotFound name).

Definition open_repo (g : GithubManager) (repository : string)
  : M GithubManager :=
  _ <- emit (EvGithubOpenRepo repository);;
  e <- get_env;;
  match github e !! repository with
  | Some _ => ret {| token := token g; opened := Some repository |}
  | None => raise (GithubException repository)
  end.

Definition get_clone_url (g : GithubManager) : M string :=
  match opened g with
  | None => raise (GithubException "")
  | Some repository =>
      _ <- emit (EvGithubCloneUrl repository);;
      e <- get_env;;
      of_option (github e !! repository) (GithubException repository)
  end.

Definition remote_names (r : Repo) : list string := (remotes r).*1.

Definition put_repo (dir : string) (r : Repo) : M unit :=
  e <- get_env;; put_env (set_repos (<[dir := r]> (repos e)) e).

Definition get_repo (dir : string) : M Repo :=
  e <- get_env;; of_option (repos e !! dir) (InvalidGitRepositoryError dir).

(** [Repo(dir)] *)
Definition Repo_open (dir : string) : M unit :=
  ex <- path_exists dir;;
  if negb ex then raise (NoSuchPathError dir)
  else _ <- get_repo dir;; pass.

(** [Remote(repo, name).exists()] *)
Definition remote_exists (dir name : string) : M bool :=
  r <- get_repo dir;; ret (bool_decide (name ∈ remote_names r)).

(** [Remote.add(repo, name, url)]: git remote add *)
Definition remote_add (dir name url : string) : M unit :=
  _ <- emit (EvGitRemoteAdd dir name url);;
  r <- get_repo dir;;
  if bool_decide (name ∈ remote_names r)
  then raise (GitCommandError "remote add")
  else put_repo dir {| remotes := remotes r ++ [(name, url)];
                       refs := refs r; head := head r |}.

(** [p] lies under the directory [dir]. *)
Definition under (dir p : string) : bool :=
  PyStr.startswith p (dir ++ "/").

(** git clones into a path that is not there yet or is an empty directory:
    not into a regular file, and not into a directory that holds
    anything. *)
Definition clone_target_ok (dir : string) (e : Env) : bool :=
  negb (bool_decide (dir ∈ files e))
  && forallb (λ p, negb (under dir p)) (elements (files e ∪ dirs e)).

(** [Repo.clone_from(url, dir)]: git clone.  It fails on a destination that
    is a file or holds anything, and on a url no host answers.  The clone
    has the one remote [origin] and a remote-tracking ref for each branch
    the host serves; the destination becomes a directory that holds [.git]
    and is modified at the time of the call ([checkout] reaches the clone
    only with a destination that exists).  The files of the working tree,
    which git writes under the destination as well, depend on the contents
    of the repository, which the environment does not have: they are not
    recorded, and nothing is stated below about the files under a package
    path. *)
Definition clone_from (url dir : string) : M unit :=
  _ <- emit (EvGitClone url dir);;
  e <- get_env;;
  if clone_target_ok dir e then
    match hosts e !! url with
    | None => raise (GitCommandError "clone")
    | Some branches =>
        _ <- put_env
               (set_mtimes (<[dir := clock e]> (mtimes e))
                  (set_dirs ({[dir; dir ++ "/.git"]} ∪ dirs e) e));;
        put_repo dir {| remotes := [("origin", url)];
                        refs := pair "origin" <$> branches;
                        head := List.hd_error branches |}
    end
  else raise (GitCommandError "clone").

(** [repo.remote()]: the remote named [origin] *)
Definition repo_remote (dir : string) : M string :=
  ex <- remote_exists dir "origin";;
  if ex then ret "origin" else raise (KeyError "origin").

Definition rename_in (old new : string) (nx : string * string)
  : string * string :=
  (if String.eqb nx.1 old then new else nx.1, nx.2).

(** [remote.rename(new)]: nothing to do when the name is [new] already,
    git remote rename otherwise.  Gives the remote under its new name. *)
Definition remote_rename (dir old new : string) : M string :=
  if String.eqb old new then ret old
  else
    _ <- emit (EvGitRemoteRename dir old new);;
    r <- get_repo dir;;
    if bool_decide (new ∈ remote_names r)
    then raise (GitCommandError "remote rename")
    else
      _ <- put_repo dir {| remotes := rename_in old new <$> remotes r;
                          refs := rename_in old new <$> refs r;
                          head := head r |};;
      ret new.

Definition remote_url (r : Repo) (name : string) : option string :=
  snd <$> List.find (λ nu, String.eqb nu.1 name) (remotes r).

(** [remote.fetch()]: git fetch from the url the remote is configured with *)
Definition remote_fetch (dir name : string) : M unit :=
  _ <- emit (EvGitFetch dir name);;
  r <- get_repo dir;;
  url <- of_option (remote_url r name) (GitCommandError "fetch");;
  e <- get_env;;
  branches <- of_option (hosts e !! url) (GitCommandError "fetch");;
  put_repo dir {| remotes := remotes r;
                  refs := list_union (pair name <$> branches) (refs r);
                  head := head r |}.

Definition ref_name (nb : string * string) : string := nb.1 ++ "/" ++ nb.2.

Definition has_ref (r : Repo) (ref : string) : bool :=
  existsb (λ nb, String.eqb (ref_name nb) ref) (refs r).

(** [repo.git.checkout(ref)]: the ref has to be there, and becomes what is
    checked out.  What git then writes under the working tree depends on the
    contents of the repository and is not recorded (see [clone_from]). *)
Definition git_checkout (dir ref : string) : M unit :=
  _ <- emit (EvGitCheckout dir ref);;
  r <- get_repo dir;;
  if has_ref r ref
  then put_repo dir {| remotes := remotes r; refs := refs r;
                       head := Some ref |}
  else raise (GitCommandError "checkout").

(** ** get_dist_egg_link *)

(** The loop computes each candidate marker and tests it; the body of the
    [if] is the bare expression [egg_link], which has no effect, and the
    function ends in [return None]. *)
Definition get_dist_egg_link (dist : Distribution) : M (option string) :=
  e <- get_env;;
  _ <- for_each (sys_path e) (λ path_item,
         let egg_link :=
           PyStr.path_join path_item (project_name dist ++ ".egg-link") in
         found <- isfile egg_link;;
         if found then (let _ := egg_link in pass) else pass);;
  ret None.

(** ** PackageManager *)

(** [not config]: [None] and the empty dictionary are false. *)
Definition config_truthy (c : option (gmap string CfgVal)) : bool :=
  match c with
  | Some d => negb (bool_decide (d = ∅))
  | None => false
  end.

(** [self._path] *)
Definition self_path (self : PackageManager) : M string :=
  of_option (_path self) (AttributeError "_path").

(** [self._config[k]] *)
Definition config_entry (self : PackageManager) (k : string) : M CfgVal :=
  match _config self with
  | Some c => getitem c k
  | None => raise TypeError
  end.

(** [self._config["github_branch"][k]] *)
Definition github_branch (self : PackageManager) (k : string) : M string :=
  v <- config_entry self "github_branch";;
  match v with
  | VDict d => getitem d k
  | _ => raise TypeError
  end.

(** [repository.split("/")[0]] *)
Definition remote_name (repository : string) : string :=
  List.hd "" (PyStr.split "/" repository).

Definition is_InvalidGitRepositoryError (e : Exn) : bool :=
  match e with InvalidGitRepositoryError _ => true | _ => false end.

(** [v == False] *)
Definition eq_False (v : CfgVal) : bool :=
  match v with VBool false => true | _ => false end.

(** [s[0 : len(s) - 1] if s[len(s) - 1] == "/" else s] *)
Definition strip_slash (s : string) : M string :=
  let n := Z.of_nat (String.length s) in
  c <- of_option (PyStr.index s (n - 1)) IndexError;;
  ret (if Ascii.eqb c "/" then PyStr.slice_to s (n - 1) else s).

Definition is_local_package (self : PackageManager) : bool :=
  match _config self with
  | None => false
  | Some c => bool_decide (is_Some (c !! "local_path"))
  end.

Definition checkout (self : PackageManager) : M PackageManager :=
  match _config self with
  | None => raise (MissingPackageInConfigFile (_name self))
  | Some _ =>
      match _github_manager self with
      | None => ret self
      | Some gm =>
          dir <- self_path self;;
          repository <- github_branch self "repository";;
          gm <- open_repo gm repository;;
          let self := set_github_manager gm self in
          clone_url <- get_clone_url gm;;
          remote <- try_except
            (_ <- Repo_open dir;;
             repository <- github_branch self "repository";;
             ex <- remote_exists dir (remote_name repository);;
             if ex then ret (remote_name repository)
             else
               repository <- github_branch self "repository";;
               _ <- remote_add dir (remote_name repository) clone_url;;
               ret (remote_name repository))
            is_InvalidGitRepositoryError
            (_ <- clone_from clone_url dir;;
             remote <- repo_remote dir;;
             repository <- github_branch self "repository";;
             remote_rename dir remote (remote_name repository));;
          let self := set_repo dir self in
          _ <- remote_fetch dir remote;;
          repository <- github_branch self "repository";;
          branch <- github_branch self "branch";;
          _ <- git_checkout dir (remote_name repository ++ "/" ++ branch);;
          ret self
      end
  end.

Definition __init__ (name : string) : M PackageManager :=
  e <- get_env;;
  let self :=
    {| _name := name; _config := packages (config_file e) !! name;
       _github_manager := None; _repo := None; _branch := None;
       _path := None |} in
  if negb (config_truthy (_config self))
  then raise (MissingPackageInConfigFile name)
  else
    e <- get_env;;
    let storage := repo_storage_directory (config_file e) in
    _ <- log_message (nl ++ nl ++ "Initializing '" ++ name ++ "'...");;
    if is_local_package self then
      v <- config_entry self "local_path";;
      match v with
      | VStr p => ret (set_path p self)
      | _ => raise TypeError
      end
    else
      match storage with
      | Some d =>
          repository <- github_branch self "repository";;
          _ <- log_message
                 ("Checking out Git repository from '" ++ repository ++ "'...");;
          let self := set_path (PyStr.path_join d name) self in
          dir <- self_path self;;
          ex <- path_exists dir;;
          _ <- (if ex then pass else mkdir dir);;
          e <- get_env;;
          let self :=
            set_github_manager
              {| token := github_access_token (config_file e);
                 opened := None |} self in
          self <- checkout self;;
          _ <- log_message "✓ Checkout complete";;
          ret self
      | None => ret self
      end.



Definition shall_be_linked (self : PackageManager) : bool :=
  match _config self with
  | None => false
  | Some c =>
      negb (bool_decide (is_Some (c !! "link_package"))
            && from_option eq_False false (c !! "link_package"))
  end.

Definition path (self : PackageManager) : M string := self_path self.

Definition script_shell_cmd : list string :=
  ["npm"; "config"; "set"; "script-shell"; "powershell"].

Definition installing_msg (self : PackageManager) : string :=
  nl ++ nl ++ "Installing '" ++ _name self ++ "'...".

Definition building_msg (self : PackageManager) : string :=
  nl ++ nl ++ "Building '" ++ _name self ++ "'...".

Section Methods.

Context (sh : Shell) (strat : Strategy).

Definition run_exec (cmd : list string) (cwd : string) : M unit :=
  _ <- emit (EvExec cmd cwd);; lift_env (exec sh cmd cwd).

Definition run_check_output (cmd : list string) (cwd : string) : M string :=
  _ <- emit (EvCheckOutput cmd cwd);;
  lift_env (λ e, (check_output sh cmd cwd e, e)).

(** [self.execute_package_specific_installation_routine()] *)
Definition call_installation_routine (self : PackageManager) : M unit :=
  _ <- emit (EvInstallRoutine (_name self));;
  lift_env (execute_package_specific_installation_routine strat self).

(** [self.execute_package_specific_build_routine()] *)
Definition call_build_routine (self : PackageManager) : M unit :=
  _ <- emit (EvBuildRoutine (_name self));;
  lift_env (execute_package_specific_build_routine strat self).

(** [self.get_build_timestamp()] *)
Definition call_get_build_timestamp (self : PackageManager) : M Z :=
  lift_env (λ e, (get_build_timestamp strat self e, e)).

(** [self._cache.store_package_modified_timestamp(name, is_local)] *)
Definition cache_store_modified (name : string) (is_local : bool) : M unit :=
  e <- get_env;;
  c <- get_cache;;
  put_cache (store_package_modified_timestamp c name is_local (clock e)).

(** [self._cache.store_package_built_timestamp(name, is_local)] *)
Definition cache_store_built (name : string) (is_local : bool) : M unit :=
  e <- get_env;;
  c <- get_cache;;
  put_cache (store_package_built_timestamp c name is_local (clock e)).

Definition install (self : PackageManager) : M unit :=
  c <- get_cache;;
  let cached :=
    get_package_modified_timestamp c (_name self) (is_local_package self) in
  dir <- self_path self;;
  mtime <- getmtime dir;;
  if cached <? mtime then
    _ <- log_message (installing_msg self);;
    e <- get_env;;
    _ <- (if PyStr.startswith (platform e) "win" then
            dir <- self_path self;;
            _ <- run_exec script_shell_cmd dir;;
            log_message "Successfully set npm script-shell to powershell."
          else pass);;
    dist <- get_distribution (_name self);;
    (* [if dist:] a Distribution is true *)
    egg_link <- get_dist_egg_link dist;;
    _ <- match egg_link with
         | Some f =>
             if negb (String.eqb f "") then
               _ <- log_message "Removing egg link...";;
               _ <- os_remove f;;
               log_message "✓ Removed"
             else pass
         | None => pass
         end;;
    _ <- call_installation_routine self;;
    cache_store_modified (_name self) (is_local_package self)
  else pass.

Definition build (self : PackageManager) : M unit :=
  c <- get_cache;;
  let cached :=
    get_package_build_timestamp c (_name self) (is_local_package self) in
  ts <- call_get_build_timestamp self;;
  if cached <? ts then
    _ <- log_message (building_msg self);;
    _ <- call_build_routine self;;
    cache_store_built (_name self) (is_local_package self)
  else pass.

Definition is_linked (self : PackageManager) : M bool :=
  dir <- self_path self;;
  linked_packages <-
    run_check_output ["npm"; "ls"; "-g"; "--depth=0"; "--link=true"] dir;;
  dir <- self_path self;;
  p <- strip_slash dir;;
  ret (PyStr.contains p linked_packages).

Definition is_linked_to (self : PackageManager)
    (other_package other_package_path : string) : M bool :=
  dir <- self_path self;;
  packages <- run_check_output ["npm"; "list"] (PyStr.path_join dir "react");;
  p <- strip_slash other_package_path;;
  ret (existsb
         (λ line, PyStr.contains other_package line
                  && (PyStr.contains p line
                      || String.eqb other_package_path ""))
         (PyStr.split "\n" packages)).

End Methods.

(** ** A sample workspace

    Two packages: [widgets], tracked from the branch [main] of the GitHub
    repository [acme/widgets], and [foo], a local directory. *)

Definition widgets_descriptor : gmap string CfgVal :=
  {[ "github_branch" :=
       VDict {[ "repository" := "acme/widgets"; "branch" := "main" ]} ]}.

Definition foo_descriptor : gmap string CfgVal :=
  {[ "local_path" := VStr "/ws/foo" ]}.

Definition sample_config (storage : option string) : ConfigFile :=
  {| packages := {[ "widgets" := widgets_descriptor; "foo" := foo_descriptor ]};
     repo_storage_directory := storage;
     github_access_token := "t0ken" |}.

Definition widgets_url : string := "https://github.com/acme/widgets.git".

Definition sample_env (storage : option string) : Env :=
  {| platform := "linux";
     sys_path := ["/site"];
     files := {[ "/site/foo.egg-link" ]};
     dirs := {[ "/store"; "/ws/foo"; "/site" ]};
     mtimes := {[ "/ws/foo" := 100 ]};
     clock := 150;
     working_set := {[ "foo" := {| project_name := "foo" |} ]};
     repos := ∅;
     hosts := {[ widgets_url := ["main"; "dev"] ]};
     github := {[ "acme/widgets" := widgets_url ]};
     config_file := sample_config storage |}.

Definition sample_world (storage : option string) : World :=
  {| env := sample_env storage; cache := ∅; trace := [] |}.

(** The instance [__init__] builds for [foo]. *)
Definition foo_manager : PackageManager :=
  {| _name := "foo"; _config := Some foo_descriptor;
     _github_manager := None; _repo := None; _branch := None;
     _path := Some "/ws/foo" |}.


(** The instance [__init__] is about to check out for [widgets] under the
    storage directory [/store]. *)
Definition widgets_manager : PackageManager :=
  {| _name := "widgets"; _config := Some widgets_descriptor;
     _github_manager := Some {| token := "t0ken"; opened := None |};
     _repo := None; _branch := None;
     _path := Some "/store/widgets" |}.

(** The world in which the storage directory of [widgets] has been made,
    and the instance and the world a first [checkout] leaves. *)
Definition widgets_world : World :=
  {| env := set_dirs ({[ "/store/widgets" ]} ∪ dirs (sample_env (Some "/store")))
              (sample_env (Some "/store"));
     cache := ∅; trace := [] |}.

Definition widgets_manager1 : PackageManager :=
  set_repo "/store/widgets"
    (set_github_manager {| token := "t0ken"; opened := Some "acme/widgets" |}
       widgets_manager).

Definition widgets_world1 : World :=
  (checkout widgets_manager widgets_world).2.

(** A package kind whose routines succeed and leave the environment as it
    is, and whose build output dates from time 120. *)
Definition sample_strategy : Strategy :=
  {| execute_package_specific_installation_routine := λ _ e, (Ok (), e);
     execute_package_specific_build_routine := λ _ e, (Ok (), e);
     get_build_timestamp := λ _ _, Ok 120 |}.

(** A package kind whose installation routine fails. *)
Definition failing_strategy : Strategy :=
  {| execute_package_specific_installation_routine :=
       λ _ e, (Raise (CalledProcessError ["npm"; "install"]), e);
     execute_package_specific_build_routine := λ _ e, (Ok (), e);
     get_build_timestamp := λ _ _, Ok 120 |}.

Definition sample_listing : string :=
  "b'foo@1.0.0 /ws/foo/react\n+-- bar@2.0.0 -> /ws/bar\n'".

Definition sample_shell : Shell :=
  {| exec := λ _ _ e, (Ok (), e);
     check_output := λ _ _ _, Ok sample_listing |}.

(** ** The two halves of checkout

    [reconcile] is the [try ... except InvalidGitRepositoryError ...] of
    [checkout], which leaves the remote to fetch from, and [fetch_checkout]
    is what follows it. *)

Definition reconcile (self : PackageManager) (dir clone_url : string)
  : M string :=
  try_except
    (_ <- Repo_open dir;;
     repository <- github_branch self "repository";;
     ex <- remote_exists dir (remote_name repository);;
     if ex then ret (remote_name repository)
     else
       repository <- github_branch self "repository";;
       _ <- remote_add dir (remote_name repository) clone_url;;
       ret (remote_name repository))
    is_InvalidGitRepositoryError
    (_ <- clone_from clone_url dir;;
     remote <- repo_remote dir;;
     repository <- github_branch self "repository";;
     remote_rename dir remote (remote_name repository)).

Definition fetch_checkout (self : PackageManager) (dir remote : string)
  : M PackageManager :=
  _ <- remote_fetch dir remote;;
  repository <- github_branch self "repository";;
  branch <- github_branch self "branch";;
  _ <- git_checkout dir (remote_name repository ++ "/" ++ branch);;
  ret self.

(** What git leaves as it is when it works on the tree at [dir]: the hosts
    and the GitHub resolution, and the path [dir] itself, which stays the
    file or the directory it is. *)
Definition git_frame (dir : string) (e e' : Env) : Prop :=
  hosts e' = hosts e ∧ github e' = github e
  ∧ (dir ∈ files e → dir ∈ files e')
  ∧ (dir ∈ dirs e → dir ∈ dirs e').

(** The world in which GitHub resolves [repository] to [url]. *)
Definition with_clone_url (repository url : string) (w : World) : World :=
  {| env := set_github (<[repository := url]> (github (env w))) (env w);
     cache := cache w; trace := trace w |}.

(** The events of a clone and of the renaming of its remote. *)
Definition clone_events (dir url name : string) : list Event :=
  EvGitClone url dir
  :: (if String.eqb "origin" name then []
      else [EvGitRemoteRename dir "origin" name]).

(** The package path exists, as a file or as a directory. *)
Definition path_ok (dir : string) (e : Env) : Prop :=
  bool_decide (dir ∈ files e) || bool_decide (dir ∈ dirs e) = true.

#[global] Instance path_ok_dec (dir : string) (e : Env) :
  Decision (path_ok dir e).
Proof. unfold path_ok. apply _. Defined.

(** ** The platform step of install

    What [install] does first when the gate is open, when [sys.platform]
    starts with [win]: as an action on the environment, and as the events it
    leaves when it succeeds. *)

Definition platform_step (sh : Shell) (dir : string) (e : Env)
  : Result unit * Env :=
  if PyStr.startswith (platform e) "win" then exec sh script_shell_cmd dir e
  else (Ok (), e).

Definition platform_events (dir : string) (e : Env) : list Event :=
  if PyStr.startswith (platform e) "win"
  then [EvExec script_shell_cmd dir;
        EvLog "Successfully set npm script-shell to powershell."]
  else [].

(** ** More of the sample workspace *)



(** A Windows machine on which [foo] was never installed, and a shell in
    which every command fails. *)
Definition windows_env : Env :=
  {| platform := "win32"; sys_path := []; files := ∅;
     dirs := {[ "/ws/foo" ]}; mtimes := {[ "/ws/foo" := 100 ]}; clock := 150;
     working_set := ∅; repos := ∅; hosts := ∅; github := ∅;
     config_file := sample_config None |}.

Definition failing_shell : Shell :=
  {| exec := λ cmd _ e, (Raise (CalledProcessError cmd), e);
     check_output := λ cmd _ _, Raise (CalledProcessError cmd) |}.

(** The sample workspace on a first run, before [foo] was ever installed:
    pkg_resources has no distribution of that name. *)
Definition uninstalled_world : World :=
  {| env := {| platform := "linux"; sys_path := ["/site"]; files := ∅;
               dirs := {[ "/ws/foo"; "/site" ]};
               mtimes := {[ "/ws/foo" := 100 ]}; clock := 150;
               working_set := ∅; repos := ∅; hosts := ∅; github := ∅;
               config_file := sample_config None |};
     cache := ∅; trace := [] |}.

(** The directory of [widgets] is there and holds a file, but no working
    tree. *)
Definition occupied_world : World :=
  {| env := set_files ({[ "/store/widgets/notes.txt" ]}
                         ∪ files (env widgets_world)) (env widgets_world);
     cache := ∅; trace := [] |}.

(** The directory of [widgets] is there and empty, and no host answers. *)
Definition offline_world : World :=
  {| env := {| platform := "linux"; sys_path := ["/site"]; files := ∅;
               dirs := {[ "/store"; "/store/widgets" ]};
               mtimes := ∅; clock := 150; working_set := ∅; repos := ∅;
               hosts := ∅;
               github := {[ "acme/widgets" := widgets_url ]};
               config_file := sample_config (Some "/store") |};
     cache := ∅; trace := [] |}.

(** ** Joining and confinement *)

(** [sep.join(l)] *)
Fixpoint join (sep : string) (l : list string) : string :=
  match l with
  | [] => ""
  | [x] => x
  | x :: l' => x ++ sep ++ join sep l'
  end.

(** [p] is outside the directory [dir]: neither [dir] nor under it. *)
Definition outside (dir p : string) : Prop :=
  p ≠ dir ∧ under dir p = false.

(** What an action confined to the package path [dir] leaves alone: the
    cache, the platform, the module search path, the installed
    distributions, the hosts, the GitHub resolution and the configuration;
    every file, directory and working tree outside [dir]; and the
    modification time of every path outside [dir] other than the parent of
    [dir].  It only adds to the trace.  Nothing is said of what is at or
    under [dir]. *)
Definition confined_to (dir : string) (w w' : World) : Prop :=
  cache w' = cache w
  ∧ platform (env w') = platform (env w)
  ∧ sys_path (env w') = sys_path (env w)
  ∧ working_set (env w') = working_set (env w)
  ∧ hosts (env w') = hosts (env w)
  ∧ github (env w') = github (env w)
  ∧ config_file (env w') = config_file (env w)
  ∧ (∀ p, outside dir p →
          (p ∈ files (env w') ↔ p ∈ files (env w))
          ∧ (p ∈ dirs (env w') ↔ p ∈ dirs (env w))
          ∧ repos (env w') !! p = repos (env w) !! p
          ∧ (p ≠ PyStr.parent dir →
             mtimes (env w') !! p = mtimes (env w) !! p))
  ∧ trace w `prefix_of` trace w'.

(** A statement that is confined to [dir] however it ends. *)
Definition confined {A} (dir : string) (m : M A) : Prop :=
  ∀ w, confined_to dir w (m w).2.

(** ** Running statements *)

Lemma bind_ok {A B} (m : M A) (f : A → M B) w a w' :
  m w = (Ok a, w') → bind m f w = f a w'.
Proof. intros H. unfold bind. now rewrite H. Qed.

Lemma bind_raise {A B} (m : M A) (f : A → M B) w e w' :
  m w = (Raise e, w') → bind m f w = (Raise e, w').
Proof. intros H. unfold bind. now rewrite H. Qed.

Lemma bind_inv_ok {A B} (m : M A) (f : A → M B) w b w2 :
  bind m f w = (Ok b, w2) →
  ∃ a w1, m w = (Ok a, w1) ∧ f a w1 = (Ok b, w2).
Proof.
  unfold bind. destruct (m w) as [[a | e] w1].
  - intros H. now exists a, w1.
  - discriminate.
Qed.

(** A world is determined by its three components. *)
Lemma world_eta w :
  {| env := env w; cache := cache w; trace := trace w |} = w.
Proof. now destruct w. Qed.

Lemma count_events_app p t1 t2 :
  count_events p (t1 ++ t2) = (count_events p t1 + count_events p t2)%nat.
Proof. unfold count_events. now rewrite List.filter_app, length_app. Qed.

(** ** Construction *)

(** C7: constructing a manager for a package name that the configuration
    does not have raises [MissingPackageInConfigFile] and leaves the world
    exactly as it was: nothing is added to the trace, so no file system or
    network action was performed, and the environment is untouched. *)
Theorem init_missing_package (name : string) (w : World) :
  packages (config_file (env w)) !! name = None →
  __init__ name w = (Raise (MissingPackageInConfigFile name), w).
Proof.
  intros Habsent. unfold __init__.
  erewrite bind_ok by reflexivity. cbn [_config].
  now rewrite Habsent.
Qed.

Lemma init_missing_package_witness :
  __init__ "ghost" (sample_world (Some "/store"))
  = (Raise (MissingPackageInConfigFile "ghost"), sample_world (Some "/store")).
Proof. apply init_missing_package. vm_compute. reflexivity. Defined.

(** ** shall_be_linked *)

(** C8: for a package the configuration has, [shall_be_linked] depends on
    the descriptor alone; it is false exactly when the descriptor sets
    [link_package] to [False], and true when the key is absent or set to
    [True]. *)
Theorem shall_be_linked_spec (self : PackageManager) (c : gmap string CfgVal) :
  _config self = Some c →
  (shall_be_linked self = false ↔ c !! "link_package" = Some (VBool false))
  ∧ (c !! "link_package" = None → shall_be_linked self = true)
  ∧ (c !! "link_package" = Some (VBool true) → shall_be_linked self = true)
  ∧ (∀ other, _config other = _config self →
              shall_be_linked other = shall_be_linked self).
Proof.
  intros Hc. unfold shall_be_linked. rewrite Hc.
  repeat split.
  - destruct (c !! "link_package") as [[s | [] | d] |] eqn:E;
      cbn; try discriminate; auto.
  - intros ->. reflexivity.
  - intros ->. reflexivity.
  - intros ->. reflexivity.
  - intros other Ho. now rewrite Ho.
Qed.

Lemma shall_be_linked_spec_witness :
  shall_be_linked foo_manager = true.
Proof.
  apply (shall_be_linked_spec foo_manager foo_descriptor eq_refl).
  vm_compute. reflexivity.
Defined.

(** ** get_dist_egg_link *)

Lemma for_each_probe (dist : Distribution) (l : list string) (w : World) :
  for_each l (λ path_item,
      let egg_link :=
        PyStr.path_join path_item (project_name dist ++ ".egg-link") in
      found <- isfile egg_link;;
      if found then (let _ := egg_link in pass) else pass) w
  = (Ok (), w).
Proof.
  induction l as [| x l IH]; cbn [for_each].
  - reflexivity.
  - unfold bind at 1. unfold isfile, bind, get_env, ret, pass.
    cbn. destruct (bool_decide _); apply IH.
Qed.

(** The function gives [None] whatever the module search path holds, and
    changes nothing. *)
Lemma get_dist_egg_link_None (dist : Distribution) (w : World) :
  get_dist_egg_link dist w = (Ok None, w).
Proof.
  unfold get_dist_egg_link.
  erewrite bind_ok by reflexivity.
  erewrite bind_ok by apply for_each_probe.
  reflexivity.
Qed.

(** ** install *)

Section InstallProps.
Context (sh : Shell) (strat : Strategy).

Lemma install_open (self : PackageManager) (w : World) (dir : string)
    (mtime : Z) (e1 : Env) (dist : Distribution) :
  _path self = Some dir →
  mtimes (env w) !! dir = Some mtime →
  get_package_modified_timestamp (cache w) (_name self)
    (is_local_package self) < mtime →
  platform_step sh dir (env w) = (Ok (), e1) →
  working_set e1 !! _name self = Some dist →
  install sh strat self w =
    let t := (trace w ++ [EvLog (installing_msg self)]
                ++ platform_events dir (env w)
                ++ [EvInstallRoutine (_name self)])%list in
    match execute_package_specific_installation_routine strat self e1 with
    | (Ok _, e2) =>
        (Ok (),
         {| env := e2;
            cache := store_package_modified_timestamp (cache w)
                       (_name self) (is_local_package self) (clock e2);
            trace := t |})
    | (Raise x, e2) => (Raise x, {| env := e2; cache := cache w; trace := t |})
    end.
Proof.
  intros Hp Hm Hlt Hplat Hdist.
  unfold install.
  erewrite bind_ok by reflexivity.
  unfold self_path. rewrite Hp. cbn [of_option].
  erewrite bind_ok by reflexivity.
  unfold getmtime.
  erewrite bind_ok; cycle 1.
  { erewrite bind_ok by reflexivity. rewrite Hm. reflexivity. }
  apply Z.ltb_lt in Hlt. rewrite Hlt.
  erewrite bind_ok by reflexivity.
  erewrite bind_ok by reflexivity.
  cbn [env].
  unfold platform_step, platform_events in *.
  destruct (PyStr.startswith (platform (env w)) "win") eqn:Hwin.
  - erewrite bind_ok; cycle 1.
    { erewrite bind_ok by reflexivity.
      erewrite bind_ok; cycle 1.
      { unfold run_exec. erewrite bind_ok by reflexivity.
        unfold lift_env. cbn [env]. rewrite Hplat. reflexivity. }
      reflexivity. }
    unfold get_distribution.
    erewrite bind_ok; cycle 1.
    { erewrite bind_ok by reflexivity. cbn [env]. rewrite Hdist. reflexivity. }
    erewrite bind_ok by apply get_dist_egg_link_None.
    erewrite bind_ok by reflexivity.
    unfold call_installation_routine, cache_store_modified.
    unfold bind, emit, lift_env, get_env, get_cache, put_cache. cbn.
    destruct (execute_package_specific_installation_routine strat self e1)
      as [[[] | x] e2]; cbn; rewrite <- ?app_assoc; reflexivity.
  - inversion Hplat; subst e1.
    erewrite bind_ok by reflexivity.
    unfold get_distribution.
    erewrite bind_ok; cycle 1.
    { erewrite bind_ok by reflexivity. cbn [env]. rewrite Hdist. reflexivity. }
    erewrite bind_ok by apply get_dist_egg_link_None.
    erewrite bind_ok by reflexivity.
    unfold call_installation_routine, cache_store_modified.
    unfold bind, emit, lift_env, get_env, get_cache, put_cache. cbn.
    destruct (execute_package_specific_installation_routine strat self (env w))
      as [[[] | x] e2]; cbn; rewrite <- ?app_assoc; reflexivity.
Qed.

Lemma install_closed (self : PackageManager) (w : World) (dir : string)
    (mtime : Z) :
  _path self = Some dir →
  mtimes (env w) !! dir = Some mtime →
  mtime ≤ get_package_modified_timestamp (cache w) (_name self)
            (is_local_package self) →
  install sh strat self w = (Ok (), w).
Proof.
  intros Hp Hm Hle. unfold install.
  erewrite bind_ok by reflexivity.
  unfold self_path. rewrite Hp. cbn [of_option].
  erewrite bind_ok by reflexivity.
  unfold getmtime.
  erewrite bind_ok; cycle 1.
  { erewrite bind_ok by reflexivity. rewrite Hm. reflexivity. }
  apply Z.ltb_ge in Hle. now rewrite Hle.
Qed.

Lemma platform_events_no_routine (dir : string) (e : Env) :
  count_events is_install_routine (platform_events dir e) = 0%nat.
Proof. unfold platform_events. now destruct (PyStr.startswith _ _). Qed.

(** Whatever happens in [install], the cache is either left as it was or
    holds the time at which the installation routine returned normally. *)
Lemma install_cache (self : PackageManager) (w : World) :
  cache (install sh strat self w).2 = cache w
  ∨ ((install sh strat self w).1 = Ok ()
     ∧ ∃ e1 e2,
         execute_package_specific_installation_routine strat self e1
         = (Ok (), e2)
         ∧ cache (install sh strat self w).2
           = store_package_modified_timestamp (cache w) (_name self)
               (is_local_package self) (clock e2)).
Proof.
  set (P := λ res : Result unit * World,
         cache res.2 = cache w
         ∨ (res.1 = Ok ()
            ∧ ∃ e1 e2,
                execute_package_specific_installation_routine strat self e1
                = (Ok (), e2)
                ∧ cache res.2
                  = store_package_modified_timestamp (cache w) (_name self)
                      (is_local_package self) (clock e2))).
  change (P (install sh strat self w)).
  assert (Hleft : ∀ r w', cache w' = cache w → P (r, w')).
  { intros r w' H. left. exact H. }
  unfold install.
  erewrite bind_ok by reflexivity.
  unfold self_path. destruct (_path self) as [dir |]; cbn [of_option].
  2: { now apply Hleft. }
  erewrite bind_ok by reflexivity.
  unfold getmtime. unfold bind at 1. unfold bind at 1. unfold get_env at 1.
  destruct (mtimes (env w) !! dir) as [mtime |]; cbn [of_option ret raise].
  2: { now apply Hleft. }
  destruct (_ <? mtime).
  2: { now apply Hleft. }
  erewrite bind_ok by reflexivity.
  erewrite bind_ok by reflexivity.
  unfold bind at 1.
  match goal with
  | |- context [match ?m ?w0 with _ => _ end] =>
      assert (Hpre : ∃ r w1, m w0 = (r, w1) ∧ cache w1 = cache w)
  end.
  { cbn [env]. destruct (PyStr.startswith _ _).
    - unfold run_exec, bind, emit, lift_env, log_message. cbn.
      destruct (exec sh script_shell_cmd dir (env w)) as [[[] | x] e1]; cbn;
        eauto.
    - eauto. }
  destruct Hpre as (r & w1 & -> & Hc1).
  destruct r as [[] | x]; [| now apply Hleft].
  unfold get_distribution. unfold bind at 1. unfold bind at 1.
  unfold get_env at 1.
  destruct (working_set (env w1) !! _name self) as [dist |];
    cbn [of_option ret raise]; [| now apply Hleft].
  erewrite bind_ok by apply get_dist_egg_link_None.
  erewrite bind_ok by reflexivity.
  unfold call_installation_routine, cache_store_modified.
  unfold bind, emit, lift_env, get_env, get_cache, put_cache. cbn.
  destruct (execute_package_specific_installation_routine strat self (env w1))
    as [[[] | x] e2] eqn:Hr; cbn.
  - right. split; [reflexivity |]. exists (env w1), e2. cbn. rewrite Hc1. auto.
  - now apply Hleft.
Qed.

Lemma get_store_modified (c : gmap (string * bool) CacheRecord)
    (name : string) (is_local : bool) (now : Z) :
  get_package_modified_timestamp
    (store_package_modified_timestamp c name is_local now) name is_local
  = now.
Proof.
  unfold get_package_modified_timestamp, store_package_modified_timestamp,
    cache_record.
  now rewrite lookup_insert_eq.
Qed.

(** X19: [install] on an installed package whose preparation and
    installation routine return normally.  When the cached modified
    timestamp is strictly less than the modification time of the package
    path, the Windows npm step (if any) returns normally, pkg_resources
    knows the distribution and the installation routine returns normally,
    [install] invokes the installation routine exactly once and then stores
    the modified timestamp, the time of the store; a second call right
    after, the path not modified later than that time, changes nothing at
    all and so invokes no routine. *)
Theorem install_once (self : PackageManager) (w : World) (dir : string)
    (mtime mtime2 : Z) (e1 e2 : Env) (dist : Distribution) :
  _path self = Some dir →
  mtimes (env w) !! dir = Some mtime →
  get_package_modified_timestamp (cache w) (_name self)
    (is_local_package self) < mtime →
  platform_step sh dir (env w) = (Ok (), e1) →
  working_set e1 !! _name self = Some dist →
  execute_package_specific_installation_routine strat self e1 = (Ok (), e2) →
  mtimes e2 !! dir = Some mtime2 →
  mtime2 ≤ clock e2 →
  ∃ w1,
    install sh strat self w = (Ok (), w1)
    ∧ count_events is_install_routine (trace w1)
      = S (count_events is_install_routine (trace w))
    ∧ get_package_modified_timestamp (cache w1) (_name self)
        (is_local_package self) = clock e2
    ∧ install sh strat self w1 = (Ok (), w1).
Proof.
  intros Hp Hm Hlt Hplat Hdist Hrun Hm2 Hle.
  rewrite (install_open self w dir mtime e1 dist Hp Hm Hlt Hplat Hdist).
  rewrite Hrun. cbn zeta.
  eexists. split; [reflexivity |]. cbn [trace cache].
  split; [| split].
  - rewrite !count_events_app, platform_events_no_routine.
    unfold count_events. cbn. lia.
  - apply get_store_modified.
  - apply (install_closed _ _ dir mtime2); cbn [env cache]; auto.
    rewrite get_store_modified. exact Hle.
Qed.

(** C3: when the installation routine raises, [install] raises the same
    exception and the cache is as it was, so the next run finds the gate
    as open as before and invokes the routine again; and whenever [install]
    does not return normally the cache is unchanged, so a modified
    timestamp is only ever stored by an [install] whose routine returned
    normally. *)
Theorem install_failure_keeps_cache (self : PackageManager) (w : World) :
  ((install sh strat self w).1 ≠ Ok () →
   cache (install sh strat self w).2 = cache w)
  ∧ ∀ (dir : string) (mtime : Z) (e1 e2 : Env) (dist : Distribution)
      (x : Exn),
      _path self = Some dir →
      mtimes (env w) !! dir = Some mtime →
      get_package_modified_timestamp (cache w) (_name self)
        (is_local_package self) < mtime →
      platform_step sh dir (env w) = (Ok (), e1) →
      working_set e1 !! _name self = Some dist →
      execute_package_specific_installation_routine strat self e1
      = (Raise x, e2) →
      ∃ w1,
        install sh strat self w = (Raise x, w1)
        ∧ cache w1 = cache w
        ∧ env w1 = e2
        ∧ ∀ (mtime' : Z) (e1' : Env) (dist' : Distribution),
            mtimes e2 !! dir = Some mtime' →
            mtime ≤ mtime' →
            platform_step sh dir e2 = (Ok (), e1') →
            working_set e1' !! _name self = Some dist' →
            count_events is_install_routine
              (trace (install sh strat self w1).2)
            = S (count_events is_install_routine (trace w1)).
Proof.
  split.
  - intros Hfail.
    destruct (install_cache self w) as [H | [H _]]; [exact H | contradiction].
  - intros dir mtime e1 e2 dist x Hp Hm Hlt Hplat Hdist Hrun.
    rewrite (install_open self w dir mtime e1 dist Hp Hm Hlt Hplat Hdist).
    rewrite Hrun. cbn zeta.
    eexists. split; [reflexivity |]. cbn [cache env].
    split; [reflexivity |]. split; [reflexivity |].
    intros mtime' e1' dist' Hm' Hge Hplat' Hdist'.
    rewrite (install_open self _ dir mtime' e1' dist');
      cbn [env cache]; auto.
    2:{ eapply Z.lt_le_trans; [exact Hlt | exact Hge]. }
    cbn zeta.
    destruct (execute_package_specific_installation_routine strat self e1')
      as [[[] | x'] e3]; cbn [snd trace];
      rewrite !count_events_app, !platform_events_no_routine;
      unfold count_events; cbn; lia.
Qed.
End InstallProps.

Lemma install_once_witness :
  ∃ w1,
    install sample_shell sample_strategy foo_manager (sample_world None)
    = (Ok (), w1)
    ∧ count_events is_install_routine (trace w1)
      = S (count_events is_install_routine (trace (sample_world None)))
    ∧ get_package_modified_timestamp (cache w1) "foo" true = 150
    ∧ install sample_shell sample_strategy foo_manager w1 = (Ok (), w1).
Proof.
  apply (install_once sample_shell sample_strategy foo_manager
           (sample_world None) "/ws/foo" 100 100
           (sample_env None) (sample_env None) {| project_name := "foo" |});
    vm_compute; try reflexivity; try discriminate.
Defined.

Lemma install_failure_keeps_cache_witness :
  ∃ w1,
    install sample_shell failing_strategy foo_manager (sample_world None)
    = (Raise (CalledProcessError ["npm"; "install"]), w1)
    ∧ cache w1 = cache (sample_world None).
Proof.
  destruct (install_failure_keeps_cache sample_shell failing_strategy
              foo_manager (sample_world None)) as [_ H].
  destruct (H "/ws/foo" 100 (sample_env None) (sample_env None)
              {| project_name := "foo" |}
              (CalledProcessError ["npm"; "install"]))
    as (w1 & Hrun & Hcache & _);
    try (vm_compute; reflexivity).
  exists w1. split; assumption.
Defined.

(** C1: [install] on a package that was never installed.  On a first run
    in the sample workspace nothing is cached for [foo] and its path was
    modified at time 100, so the gate is open: the installation routine
    should be invoked once and the modified timestamp stored.  But
    pkg_resources has no distribution [foo] yet, and [get_distribution]
    raises [DistributionNotFound] where the test [if dist:] expects a false
    result: [install] ends in that exception, the installation routine is
    not invoked and nothing is stored. *)
Theorem install_never_installed :
  let w := uninstalled_world in
  let res := install sample_shell sample_strategy foo_manager w in
  mtimes (env w) !! "/ws/foo" = Some 100
  ∧ get_package_modified_timestamp (cache w) "foo"
      (is_local_package foo_manager) < 100
  ∧ working_set (env w) !! "foo" = None
  ∧ res.1 = Raise (DistributionNotFound "foo")
  ∧ count_events is_install_routine (trace res.2) = 0%nat
  ∧ cache res.2 = cache w
  ∧ env res.2 = env w.
Proof. cbv zeta. split_and!; vm_compute; reflexivity. Qed.

(** C9: the marker of an editable install is never removed.  In the sample
    workspace the file [/site/foo.egg-link] is the marker of [foo] on the
    module search path; [get_dist_egg_link] gives [None] there, and
    [install], its gate open, runs the installation routine without any
    removal: the marker is still there afterwards. *)
Theorem install_leaves_egg_link :
  let w := sample_world None in
  let res := install sample_shell sample_strategy foo_manager w in
  PyStr.path_join "/site" (project_name {| project_name := "foo" |}
                           ++ ".egg-link") = "/site/foo.egg-link"
  ∧ "/site/foo.egg-link" ∈ files (env w)
  ∧ get_dist_egg_link {| project_name := "foo" |} w = (Ok None, w)
  ∧ res.1 = Ok ()
  ∧ count_events is_install_routine (trace res.2) = 1%nat
  ∧ count_events is_remove (trace res.2) = 0%nat
  ∧ "/site/foo.egg-link" ∈ files (env res.2).
Proof.
  cbv zeta.
  rewrite (install_open sample_shell sample_strategy foo_manager
             (sample_world None) "/ws/foo" 100 (sample_env None)
             {| project_name := "foo" |});
    try (vm_compute; reflexivity).
  cbn.
  repeat split; reflexivity.
Qed.

(** ** build *)

Section BuildProps.
Context (strat : Strategy).

Lemma get_store_built (c : gmap (string * bool) CacheRecord)
    (name : string) (is_local : bool) (now : Z) :
  get_package_build_timestamp
    (store_package_built_timestamp c name is_local now) name is_local
  = now.
Proof.
  unfold get_package_build_timestamp, store_package_built_timestamp,
    cache_record.
  now rewrite lookup_insert_eq.
Qed.

(** [build] on an instance whose timestamp hook answers. *)
Lemma build_run (self : PackageManager) (w : World) (ts : Z) :
  get_build_timestamp strat self (env w) = Ok ts →
  build strat self w =
    if get_package_build_timestamp (cache w) (_name self)
         (is_local_package self) <? ts
    then
      let t := (trace w ++ [EvLog (building_msg self);
                            EvBuildRoutine (_name self)])%list in
      match execute_package_specific_build_routine strat self (env w) with
      | (Ok _, e') =>
          (Ok (),
           {| env := e';
              cache := store_package_built_timestamp (cache w)
                         (_name self) (is_local_package self) (clock e');
              trace := t |})
      | (Raise x, e') =>
          (Raise x, {| env := e'; cache := cache w; trace := t |})
      end
    else (Ok (), w).
Proof.
  intros Hts. unfold build.
  erewrite bind_ok by reflexivity.
  erewrite bind_ok; cycle 1.
  { unfold call_get_build_timestamp, lift_env. rewrite Hts.
    now rewrite world_eta. }
  destruct (_ <? ts); [| reflexivity].
  unfold call_build_routine, cache_store_built.
  unfold bind, log_message, emit, lift_env, get_env, get_cache, put_cache.
  cbn.
  destruct (execute_package_specific_build_routine strat self (env w))
    as [[[] | x] e']; cbn; rewrite <- ?app_assoc; reflexivity.
Qed.

(** C4: with [ts] the build timestamp of the package kind, [build] skips
    entirely (no build routine invoked, and the cache as it was) if and
    only if the cached built timestamp is at least [ts], and then it
    changes nothing at all; otherwise it invokes the build routine once
    and, when the routine returns normally, stores the built timestamp,
    and when the routine raises it raises too and stores nothing. *)
Theorem build_gate (self : PackageManager) (w : World) (ts : Z) :
  get_build_timestamp strat self (env w) = Ok ts →
  let cached :=
    get_package_build_timestamp (cache w) (_name self)
      (is_local_package self) in
  let res := build strat self w in
  ((count_events is_build_routine (trace res.2)
    = count_events is_build_routine (trace w)
    ∧ cache res.2 = cache w) ↔ ts ≤ cached)
  ∧ (ts ≤ cached → res = (Ok (), w))
  ∧ (cached < ts →
     count_events is_build_routine (trace res.2)
     = S (count_events is_build_routine (trace w))
     ∧ (∀ e', execute_package_specific_build_routine strat self (env w)
              = (Ok (), e') →
              res.1 = Ok ()
              ∧ env res.2 = e'
              ∧ get_package_build_timestamp (cache res.2) (_name self)
                  (is_local_package self) = clock e')
     ∧ (∀ x e', execute_package_specific_build_routine strat self (env w)
                = (Raise x, e') →
                res.1 = Raise x ∧ cache res.2 = cache w)).
Proof.
  intros Hts cached res. subst res.
  rewrite (build_run self w ts Hts). fold cached.
  destruct (cached <? ts) eqn:Hgate.
  - apply Z.ltb_lt in Hgate.
    assert (Hcount :
      ∀ r e' c,
        count_events is_build_routine
          (trace (r : Result unit,
                  {| env := e'; cache := c;
                     trace := (trace w ++ [EvLog (building_msg self);
                                 EvBuildRoutine (_name self)])%list |}).2)
        = S (count_events is_build_routine (trace w))).
    { intros r e' c. cbn [snd trace]. rewrite count_events_app.
      unfold count_events. cbn. lia. }
    cbv zeta.
    destruct (execute_package_specific_build_routine strat self (env w))
      as [[[] | x] e'] eqn:Hrun.
    + rewrite Hcount. cbn [fst snd env cache]. split_and!.
      * split; [intros [H _] |]; lia.
      * lia.
      * intros _. split_and!; [reflexivity | |].
        -- intros e'' H. inversion H. subst.
           split_and!; auto using get_store_built.
        -- intros x e'' H. discriminate.
    + rewrite Hcount. cbn [fst snd env cache]. split_and!.
      * split; [intros [H _] |]; lia.
      * lia.
      * intros _. split_and!; [reflexivity | |].
        -- intros e'' H. discriminate.
        -- intros x' e'' H. now inversion H.
  - apply Z.ltb_ge in Hgate. cbn [snd].
    split_and!; [split; auto | auto | lia].
Qed.
End BuildProps.

Lemma build_gate_witness :
  build sample_strategy foo_manager (sample_world None)
  ≠ (Ok (), sample_world None).
Proof.
  intros Hskip.
  destruct (build_gate sample_strategy foo_manager (sample_world None) 120
              eq_refl) as (_ & _ & Hopen).
  destruct Hopen as [Hcount _]; [vm_compute; reflexivity |].
  rewrite Hskip in Hcount. vm_compute in Hcount. discriminate.
Defined.

(** ** Link queries *)

Lemma length_snoc (s : string) (c : ascii) :
  String.length (s ++ String c "") = S (String.length s).
Proof. induction s as [| a s IH]; simpl; congruence. Qed.

Lemma get_snoc (s : string) (c : ascii) :
  String.get (String.length s) (s ++ String c "") = Some c.
Proof. induction s as [| a s IH]; simpl; auto. Qed.

Lemma take_snoc (s : string) (c : ascii) :
  PyStr.take (String.length s) (s ++ String c "") = s.
Proof. induction s as [| a s IH]; simpl; congruence. Qed.

Lemma index_last (s : string) (c : ascii) :
  PyStr.index (s ++ String c "") (Z.of_nat (String.length (s ++ String c "")) - 1)
  = Some c.
Proof.
  unfold PyStr.index.
  rewrite length_snoc.
  replace (Z.of_nat (S (String.length s)) - 1) with (Z.of_nat (String.length s))
    by lia.
  assert (H0 : (Z.of_nat (String.length s) <? 0) = false)
    by (apply Z.ltb_ge; lia).
  assert (H1 : (Z.of_nat (S (String.length s)) <=? Z.of_nat (String.length s))
               = false) by (apply Z.leb_gt; lia).
  cbv zeta. rewrite !H0, H1. cbn [orb]. rewrite Nat2Z.id. apply get_snoc.
Qed.

Section LinkProps.
Context (sh : Shell).

(** With the empty path, the default of the parameter, the query reaches
    [other_package_path[len(other_package_path) - 1]], which is [""[-1]]. *)
Lemma is_linked_to_empty_path (self : PackageManager) (dir other out : string)
    (w : World) :
  _path self = Some dir →
  check_output sh ["npm"; "list"] (PyStr.path_join dir "react") (env w)
  = Ok out →
  (is_linked_to sh self other "" w).1 = Raise IndexError.
Proof.
  intros Hp Hout. unfold is_linked_to, self_path. rewrite Hp.
  cbn [of_option]. erewrite bind_ok by reflexivity.
  erewrite bind_ok; cycle 1.
  { unfold run_check_output. erewrite bind_ok by reflexivity.
    unfold lift_env. cbn [env]. rewrite Hout. reflexivity. }
  reflexivity.
Qed.

(** With a path that is not empty the query answers, and the answer is
    true exactly when a line of the listing names the package and holds
    the path, one trailing slash dropped. *)
Lemma is_linked_to_nonempty (self : PackageManager)
    (dir other p0 out : string) (c : ascii) (w : World) :
  _path self = Some dir →
  check_output sh ["npm"; "list"] (PyStr.path_join dir "react") (env w)
  = Ok out →
  let other_path := p0 ++ String c "" in
  let p := if Ascii.eqb c "/" then p0 else other_path in
  (is_linked_to sh self other other_path w).1
  = Ok (existsb (λ line, PyStr.contains other line && PyStr.contains p line)
          (PyStr.split "\n" out)).
Proof.
  intros Hp Hout other_path p. unfold is_linked_to, self_path. rewrite Hp.
  cbn [of_option]. erewrite bind_ok by reflexivity.
  erewrite bind_ok; cycle 1.
  { unfold run_check_output. erewrite bind_ok by reflexivity.
    unfold lift_env. cbn [env]. rewrite Hout. reflexivity. }
  unfold strip_slash. subst other_path.
  rewrite index_last. cbn [of_option].
  erewrite bind_ok by reflexivity.
  unfold ret. cbn [fst]. f_equal.
  assert (Hne : String.eqb (p0 ++ String c "") "" = false).
  { destruct p0; reflexivity. }
  rewrite Hne.
  assert (Hslice :
    PyStr.slice_to (p0 ++ String c "")
      (Z.of_nat (String.length (p0 ++ String c "")) - 1) = p0).
  { unfold PyStr.slice_to.
    rewrite length_snoc.
    replace (Z.of_nat (S (String.length p0)) - 1)
      with (Z.of_nat (String.length p0)) by lia.
    assert (H0 : (Z.of_nat (String.length p0) <? 0) = false)
      by (apply Z.ltb_ge; lia).
    cbv zeta. rewrite H0, Nat2Z.id. apply take_snoc. }
  rewrite Hslice. subst p.
  induction (PyStr.split "\n" out) as [| line l IH]; cbn [existsb];
    [reflexivity |].
  now rewrite IH, orb_false_r.
Qed.
End LinkProps.

(** C5: [is_linked_to] with the empty path does not answer.  The listing of
    the sample workspace has a line that names [bar], so the query for
    [bar] with the empty path, the default, should be true; the
    normalisation of the path indexes the empty string and the call ends in
    [IndexError]. *)
Theorem is_linked_to_empty_path_raises :
  existsb (PyStr.contains "bar") (PyStr.split "\n" sample_listing) = true
  ∧ (is_linked_to sample_shell foo_manager "bar" "" (sample_world None)).1
    = Raise IndexError.
Proof. split; vm_compute; reflexivity. Qed.

(** ** A remote package without a storage directory *)




(** ** checkout *)

Lemma checkout_eq (self : PackageManager) :
  checkout self =
  match _config self with
  | None => raise (MissingPackageInConfigFile (_name self))
  | Some _ =>
      match _github_manager self with
      | None => ret self
      | Some gm =>
          dir <- self_path self;;
          repository <- github_branch self "repository";;
          gm <- open_repo gm repository;;
          clone_url <- get_clone_url gm;;
          remote <- reconcile (set_github_manager gm self) dir clone_url;;
          fetch_checkout (set_repo dir (set_github_manager gm self)) dir remote
      end
  end.
Proof. reflexivity. Qed.

Lemma has_ref_mono (r r' : Repo) (ref : string) :
  (∀ nb, nb ∈ refs r → nb ∈ refs r') →
  has_ref r ref = true → has_ref r' ref = true.
Proof.
  unfold has_ref. rewrite !existsb_exists.
  intros Hsub (nb & Hin & Heq). exists nb. split; [| exact Heq].
  apply list_elem_of_In, Hsub, list_elem_of_In, Hin.
Qed.

Lemma rename_refs (name : string) (bs : list string) :
  rename_in "origin" name <$> (pair "origin" <$> bs) = pair name <$> bs.
Proof.
  induction bs as [| b bs IH]; [reflexivity |].
  cbn. now rewrite IH.
Qed.

Lemma git_frame_refl (dir : string) (e : Env) : git_frame dir e e.
Proof. unfold git_frame. auto. Qed.

Lemma git_frame_set_repos (dir : string) (e : Env) (m : gmap string Repo) :
  git_frame dir e (set_repos m e).
Proof. unfold git_frame. cbn. auto. Qed.

Lemma path_ok_frame (dir : string) (e e' : Env) :
  git_frame dir e e' → path_ok dir e → path_ok dir e'.
Proof.
  unfold git_frame, path_ok. intros (_ & _ & Hf & Hd).
  rewrite !orb_true_iff, !bool_decide_eq_true.
  intros [Hin | Hin]; [left; now apply Hf | right; now apply Hd].
Qed.

Lemma clone_target_ok_true (dir : string) (e : Env) :
  clone_target_ok dir e = true
  ↔ ((dir ∉ files e) ∧ ∀ p, p ∈ files e ∪ dirs e → under dir p = false).
Proof.
  unfold clone_target_ok.
  rewrite andb_true_iff, negb_true_iff, bool_decide_eq_false, forallb_forall.
  split; intros [Hf Hu]; (split; [exact Hf |]).
  - intros p Hp. apply negb_true_iff, Hu, list_elem_of_In, elem_of_elements.
    exact Hp.
  - intros p Hp. apply negb_true_iff, Hu, elem_of_elements, list_elem_of_In.
    exact Hp.
Qed.

Lemma prefix_append_self (s t : string) :
  String.prefix (s ++ t) s = true → t = "".
Proof.
  induction s as [| a s IH].
  - destruct t; [reflexivity | discriminate].
  - change (String a s ++ t) with (String a (s ++ t)).
    cbn [String.prefix]. destruct (ascii_dec a a); [exact IH | discriminate].
Qed.

Lemma under_self (dir : string) : under dir dir = false.
Proof.
  unfold under, PyStr.startswith.
  destruct (String.prefix (dir ++ "/") dir) eqn:E; [| reflexivity].
  apply prefix_append_self in E. discriminate.
Qed.

Section CheckoutProps.

Context (c : gmap string CfgVal) (d : gmap string string)
        (repository branch dir : string).
Hypothesis Hgb : c !! "github_branch" = Some (VDict d).
Hypothesis Hrepository : d !! "repository" = Some repository.
Hypothesis Hbranch : d !! "branch" = Some branch.

Let name : string := remote_name repository.
Let ref : string := name ++ "/" ++ branch.

Lemma github_branch_repository (s : PackageManager) (w : World) :
  _config s = Some c → github_branch s "repository" w = (Ok repository, w).
Proof.
  intros Hs. unfold github_branch, config_entry, getitem.
  rewrite Hs, Hgb. cbn. now rewrite Hrepository.
Qed.

Lemma github_branch_branch (s : PackageManager) (w : World) :
  _config s = Some c → github_branch s "branch" w = (Ok branch, w).
Proof.
  intros Hs. unfold github_branch, config_entry, getitem.
  rewrite Hs, Hgb. cbn. now rewrite Hbranch.
Qed.

Lemma Repo_open_run (w : World) (r : Repo) :
  path_ok dir (env w) → repos (env w) !! dir = Some r →
  Repo_open dir w = (Ok (), w).
Proof.
  unfold path_ok. intros Hp Hr.
  unfold Repo_open, path_exists, get_repo, bind, get_env, ret, pass.
  cbn. rewrite Hp. cbn. now rewrite Hr.
Qed.

Lemma Repo_open_invalid (w : World) :
  path_ok dir (env w) → repos (env w) !! dir = None →
  Repo_open dir w = (Raise (InvalidGitRepositoryError dir), w).
Proof.
  unfold path_ok. intros Hp Hr.
  unfold Repo_open, path_exists, get_repo, bind, get_env, ret, pass.
  cbn. rewrite Hp. cbn. now rewrite Hr.
Qed.

Lemma Repo_open_missing (w : World) :
  ¬ path_ok dir (env w) →
  Repo_open dir w = (Raise (NoSuchPathError dir), w).
Proof.
  unfold path_ok. intros Hp. apply not_true_is_false in Hp.
  unfold Repo_open, path_exists, get_repo, bind, get_env, ret, pass.
  cbn. now rewrite Hp.
Qed.

(** The working tree has the remote already: it is taken as it is. *)
Lemma reconcile_existing (s : PackageManager) (w : World) (url : string)
    (r : Repo) :
  _config s = Some c →
  path_ok dir (env w) → repos (env w) !! dir = Some r →
  name ∈ remote_names r →
  reconcile s dir url w = (Ok name, w).
Proof.
  intros Hs Hp Hr Hin. unfold reconcile, try_except.
  erewrite bind_ok by (eapply Repo_open_run; eauto).
  erewrite bind_ok by (apply github_branch_repository; auto).
  erewrite bind_ok; cycle 1.
  { unfold remote_exists, get_repo. erewrite bind_ok; cycle 1.
    { erewrite bind_ok by reflexivity. rewrite Hr. reflexivity. }
    reflexivity. }
  fold name. now rewrite bool_decide_eq_true_2.
Qed.

(** The working tree lacks the remote: it is added, with the clone url. *)
Lemma reconcile_add (s : PackageManager) (w : World) (url : string)
    (r : Repo) :
  _config s = Some c →
  path_ok dir (env w) → repos (env w) !! dir = Some r →
  name ∉ remote_names r →
  reconcile s dir url w
  = (Ok name,
     {| env := set_repos
                 (<[dir := {| remotes := remotes r ++ [(name, url)];
                              refs := refs r; head := head r |}]>
                    (repos (env w))) (env w);
        cache := cache w;
        trace := trace w ++ [EvGitRemoteAdd dir name url] |}).
Proof.
  intros Hs Hp Hr Hin. unfold reconcile, try_except.
  erewrite bind_ok by (eapply Repo_open_run; eauto).
  erewrite bind_ok by (apply github_branch_repository; auto).
  erewrite bind_ok; cycle 1.
  { unfold remote_exists, get_repo. erewrite bind_ok; cycle 1.
    { erewrite bind_ok by reflexivity. rewrite Hr. reflexivity. }
    reflexivity. }
  fold name. rewrite bool_decide_eq_false_2 by exact Hin.
  erewrite bind_ok by (apply github_branch_repository; auto).
  fold name.
  unfold remote_add, get_repo, put_repo, bind, emit, get_env, put_env, ret.
  cbn. rewrite Hr. cbn.
  now rewrite bool_decide_eq_false_2 by exact Hin.
Qed.

(** No working tree: a fresh clone, whose remote is renamed. *)
Lemma reconcile_fresh (s : PackageManager) (w : World) (url : string)
    (bs : list string) :
  _config s = Some c →
  path_ok dir (env w) → repos (env w) !! dir = None →
  clone_target_ok dir (env w) = true →
  hosts (env w) !! url = Some bs →
  ∃ w',
    reconcile s dir url w = (Ok name, w')
    ∧ repos (env w') !! dir
      = Some {| remotes := [(name, url)]; refs := pair name <$> bs;
                head := List.hd_error bs |}
    ∧ git_frame dir (env w) (env w')
    ∧ cache w' = cache w
    ∧ trace w' = (trace w ++ clone_events dir url name)%list.
Proof.
  intros Hs Hp Hr Hok Hh. unfold reconcile, try_except.
  erewrite bind_raise by (eapply Repo_open_invalid; eauto).
  cbn [is_InvalidGitRepositoryError].
  erewrite bind_ok; cycle 1.
  { unfold clone_from, put_repo, bind, emit, get_env, put_env.
    cbn. rewrite Hok, Hh. reflexivity. }
  erewrite bind_ok; cycle 1.
  { unfold repo_remote, remote_exists, get_repo, bind, get_env, ret.
    cbn. rewrite lookup_insert_eq. cbn.
    rewrite bool_decide_eq_true_2 by (cbn; apply list_elem_of_here).
    reflexivity. }
  erewrite bind_ok by (apply github_branch_repository; auto).
  fold name. unfold remote_rename, clone_events.
  destruct (String.eqb "origin" name) eqn:Hname.
  - apply String.eqb_eq in Hname. rewrite <- Hname.
    eexists. split; [reflexivity |]. cbn.
    rewrite lookup_insert_eq.
    split_and!; auto.
    unfold git_frame. cbn. split_and!; auto. apply elem_of_union_r.
  - unfold get_repo, put_repo, bind, emit, get_env, put_env, ret. cbn.
    rewrite lookup_insert_eq. cbn.
    rewrite bool_decide_eq_false_2; cycle 1.
    { cbn. apply String.eqb_neq in Hname.
      intros Hin. apply list_elem_of_singleton in Hin. congruence. }
    eexists. split; [reflexivity |]. cbn.
    rewrite lookup_insert_eq, rename_refs.
    split_and!; auto.
    + unfold git_frame. cbn. split_and!; auto. apply elem_of_union_r.
    + now rewrite <- app_assoc.
Qed.

Lemma reconcile_missing (s : PackageManager) (w : World) (url : string) :
  ¬ path_ok dir (env w) →
  reconcile s dir url w = (Raise (NoSuchPathError dir), w).
Proof.
  intros Hp. unfold reconcile, try_except.
  erewrite bind_raise by (apply Repo_open_missing; auto). reflexivity.
Qed.

Lemma reconcile_unreachable (s : PackageManager) (w : World) (url : string) :
  path_ok dir (env w) → repos (env w) !! dir = None →
  hosts (env w) !! url = None →
  (reconcile s dir url w).1 = Raise (GitCommandError "clone").
Proof.
  intros Hp Hr Hh. unfold reconcile, try_except.
  erewrite bind_raise by (eapply Repo_open_invalid; eauto).
  cbn [is_InvalidGitRepositoryError].
  erewrite bind_raise; [reflexivity |].
  unfold clone_from, bind, emit, get_env. cbn. rewrite Hh.
  destruct (clone_target_ok dir (env w)); reflexivity.
Qed.

(** The path is a file, or holds something: the clone fails, and nothing
    but the attempt is left of it. *)
Lemma reconcile_blocked (s : PackageManager) (w : World) (url : string) :
  path_ok dir (env w) → repos (env w) !! dir = None →
  clone_target_ok dir (env w) = false →
  reconcile s dir url w
  = (Raise (GitCommandError "clone"),
     {| env := env w; cache := cache w;
        trace := trace w ++ [EvGitClone url dir] |}).
Proof.
  intros Hp Hr Hok. unfold reconcile, try_except.
  erewrite bind_raise by (eapply Repo_open_invalid; eauto).
  cbn [is_InvalidGitRepositoryError].
  erewrite bind_raise; [reflexivity |].
  unfold clone_from, bind, emit, get_env. cbn. rewrite Hok. reflexivity.
Qed.

(** What a [reconcile] that returns leaves behind. *)
Lemma reconcile_ok_post (s : PackageManager) (w w' : World)
    (url remote : string) :
  _config s = Some c →
  reconcile s dir url w = (Ok remote, w') →
  remote = name
  ∧ path_ok dir (env w')
  ∧ git_frame dir (env w) (env w')
  ∧ ∃ r',
      repos (env w') !! dir = Some r'
      ∧ name ∈ remote_names r'
      ∧ match repos (env w) !! dir with
        | Some r =>
            (NoDup (remote_names r) → NoDup (remote_names r'))
            ∧ (name ∈ remote_names r → remotes r' = remotes r)
        | None => remotes r' = [(name, url)]
        end.
Proof.
  intros Hs Hrun.
  destruct (decide (path_ok dir (env w))) as [Hp | Hp].
  2: { rewrite reconcile_missing in Hrun by exact Hp. discriminate. }
  destruct (repos (env w) !! dir) as [r |] eqn:Hr.
  - destruct (decide (name ∈ remote_names r)) as [Hin | Hin].
    + rewrite (reconcile_existing s w url r Hs Hp Hr Hin) in Hrun.
      inversion Hrun; subst.
      split_and!; auto using git_frame_refl.
      exists r. auto.
    + rewrite (reconcile_add s w url r Hs Hp Hr Hin) in Hrun.
      inversion Hrun; subst. cbn [env].
      split_and!; auto using git_frame_set_repos.
      eexists. split; [apply lookup_insert_eq |].
      unfold remote_names. cbn [remotes]. rewrite fmap_app. cbn.
      split_and!.
      * apply elem_of_app. right. apply list_elem_of_here.
      * intros Hnd. apply NoDup_app. split_and!; auto.
        -- intros x Hx Hx'. apply list_elem_of_singleton in Hx'. now subst.
        -- apply NoDup_singleton.
      * intros Hin'. contradiction.
  - destruct (clone_target_ok dir (env w)) eqn:Hok; cycle 1.
    { rewrite (reconcile_blocked s w url Hp Hr Hok) in Hrun. discriminate. }
    destruct (hosts (env w) !! url) as [bs |] eqn:Hh.
    + destruct (reconcile_fresh s w url bs Hs Hp Hr Hok Hh)
        as (w0 & Hrun0 & Hr0 & Hframe & _ & _).
      rewrite Hrun0 in Hrun. inversion Hrun; subst.
      split_and!; auto; try (eapply path_ok_frame; eauto; fail).
      eexists. split; [exact Hr0 |]. cbn.
      split; [apply list_elem_of_here | reflexivity].
    + pose proof (reconcile_unreachable s w url Hp Hr Hh) as Hfail.
      rewrite Hrun in Hfail. discriminate.
Qed.

(** The fetch and the checkout of the branch ref, the remote known. *)
Lemma fetch_checkout_run (s : PackageManager) (w : World) (r : Repo)
    (u : string) (bs : list string) :
  _config s = Some c →
  repos (env w) !! dir = Some r →
  remote_url r name = Some u →
  hosts (env w) !! u = Some bs →
  let fetched := list_union (pair name <$> bs) (refs r) in
  let found :=
    has_ref {| remotes := remotes r; refs := fetched; head := head r |} ref in
  ∃ w',
    fetch_checkout s dir name w
    = (if found then Ok s else Raise (GitCommandError "checkout"), w')
    ∧ repos (env w') !! dir
      = Some {| remotes := remotes r; refs := fetched;
                head := if found then Some ref else head r |}
    ∧ git_frame dir (env w) (env w')
    ∧ cache w' = cache w
    ∧ trace w' = (trace w ++ [EvGitFetch dir name; EvGitCheckout dir ref])%list.
Proof.
  intros Hs Hr Hu Hh fetched found. unfold fetch_checkout.
  erewrite bind_ok; cycle 1.
  { unfold remote_fetch, get_repo, put_repo, bind, emit, get_env, put_env,
      of_option, ret. cbn. rewrite Hr. cbn. rewrite Hu. cbn. rewrite Hh.
    reflexivity. }
  erewrite bind_ok by (apply github_branch_repository; auto).
  erewrite bind_ok by (apply github_branch_branch; auto).
  fold name. fold ref.
  unfold git_checkout, get_repo, put_repo, bind, emit, get_env, put_env,
    of_option, ret. cbn. rewrite lookup_insert_eq. cbn.
  fold fetched. subst found. unfold has_ref. cbn [refs].
  destruct (existsb _ fetched); cbn; eexists; (split; [reflexivity |]); cbn;
    rewrite ?lookup_insert_eq, <- ?app_assoc;
    split_and!; auto; unfold git_frame; cbn; auto.
Qed.

Lemma fetch_checkout_ok_post (s s' : PackageManager) (w w' : World)
    (r : Repo) :
  _config s = Some c →
  repos (env w) !! dir = Some r →
  fetch_checkout s dir name w = (Ok s', w') →
  s' = s
  ∧ git_frame dir (env w) (env w')
  ∧ ∃ u bs r',
      remote_url r name = Some u
      ∧ hosts (env w) !! u = Some bs
      ∧ repos (env w') !! dir = Some r'
      ∧ remotes r' = remotes r
      ∧ has_ref r' ref = true.
Proof.
  intros Hs Hr Hrun.
  destruct (remote_url r name) as [u |] eqn:Hu; cycle 1.
  { unfold fetch_checkout in Hrun. erewrite bind_raise in Hrun; cycle 1.
    { unfold remote_fetch, get_repo, bind, emit, get_env, of_option, ret,
        raise. cbn. rewrite Hr. cbn. rewrite Hu. reflexivity. }
    discriminate. }
  destruct (hosts (env w) !! u) as [bs |] eqn:Hh; cycle 1.
  { unfold fetch_checkout in Hrun. erewrite bind_raise in Hrun; cycle 1.
    { unfold remote_fetch, get_repo, bind, emit, get_env, of_option, ret,
        raise. cbn. rewrite Hr. cbn. rewrite Hu. cbn. rewrite Hh.
      reflexivity. }
    discriminate. }
  destruct (fetch_checkout_run s w r u bs Hs Hr Hu Hh)
    as (w0 & Hrun0 & Hr0 & Hframe & _ & _).
  rewrite Hrun0 in Hrun.
  destruct (has_ref _ ref) eqn:Hfound; [| discriminate].
  inversion Hrun; subst.
  split_and!; auto.
  eexists u, bs, _. split_and!; eauto.
Qed.

Lemma open_repo_run (gm : GithubManager) (w : World) (url : string) :
  github (env w) !! repository = Some url →
  open_repo gm repository w
  = (Ok {| token := token gm; opened := Some repository |},
     {| env := env w; cache := cache w;
        trace := trace w ++ [EvGithubOpenRepo repository] |}).
Proof.
  intros Hg. unfold open_repo, bind, emit, get_env, ret. cbn.
  now rewrite Hg.
Qed.

Lemma get_clone_url_run (gm : GithubManager) (w : World) (url : string) :
  opened gm = Some repository →
  github (env w) !! repository = Some url →
  get_clone_url gm w
  = (Ok url,
     {| env := env w; cache := cache w;
        trace := trace w ++ [EvGithubCloneUrl repository] |}).
Proof.
  intros Ho Hg. unfold get_clone_url. rewrite Ho.
  unfold bind, emit, get_env, of_option, ret. cbn. now rewrite Hg.
Qed.

(** [checkout] up to the resolved clone url. *)
Lemma checkout_resolved (self : PackageManager) (gm : GithubManager)
    (w : World) (url : string) :
  _config self = Some c →
  _github_manager self = Some gm →
  _path self = Some dir →
  github (env w) !! repository = Some url →
  let gm' := {| token := token gm; opened := Some repository |} in
  let w0 :=
    {| env := env w; cache := cache w;
       trace := (trace w ++ [EvGithubOpenRepo repository;
                             EvGithubCloneUrl repository])%list |} in
  checkout self w
  = bind (reconcile (set_github_manager gm' self) dir url)
      (λ remote,
         fetch_checkout (set_repo dir (set_github_manager gm' self)) dir
           remote) w0.
Proof.
  intros Hc Hgm Hp Hg gm' w0. rewrite checkout_eq, Hc, Hgm.
  unfold self_path. rewrite Hp. cbn [of_option].
  erewrite bind_ok by reflexivity.
  erewrite bind_ok by (apply github_branch_repository; auto).
  erewrite bind_ok by (eapply open_repo_run; eauto).
  erewrite bind_ok; cycle 1.
  { apply get_clone_url_run; [reflexivity | exact Hg]. }
  cbn [env cache trace]. now rewrite <- app_assoc.
Qed.

Lemma checkout_unresolved (self : PackageManager) (gm : GithubManager)
    (w : World) :
  _config self = Some c →
  _github_manager self = Some gm →
  _path self = Some dir →
  github (env w) !! repository = None →
  (checkout self w).1 = Raise (GithubException repository).
Proof.
  intros Hc Hgm Hp Hg. rewrite checkout_eq, Hc, Hgm.
  unfold self_path. rewrite Hp. cbn [of_option].
  erewrite bind_ok by reflexivity.
  erewrite bind_ok by (apply github_branch_repository; auto).
  erewrite bind_raise; [reflexivity |].
  unfold open_repo, bind, emit, get_env, raise. cbn. now rewrite Hg.
Qed.

Lemma has_ref_fetched (r : Repo) (bs : list string) :
  branch ∈ bs →
  has_ref {| remotes := remotes r;
             refs := list_union (pair name <$> bs) (refs r);
             head := head r |} ref = true.
Proof.
  intros Hin. unfold has_ref. apply existsb_exists.
  exists (name, branch). split.
  - apply list_elem_of_In. cbn [refs]. apply list_elem_of_union.
    left. apply list_elem_of_fmap. eauto.
  - apply String.eqb_refl.
Qed.

Lemma remote_url_single (url : string) (rf : list (string * string))
    (h : option string) :
  remote_url {| remotes := [(name, url)]; refs := rf; head := h |} name
  = Some url.
Proof. unfold remote_url. cbn. now rewrite String.eqb_refl. Qed.

(** C6: when the package path is an existing directory that holds
    nothing (so no working tree either), GitHub resolves the repository and
    a host serves the resolved clone url, [checkout] clones from that url
    into that path and then renames the remote of the clone, [origin], to
    the derived name (the text before the first slash of the repository
    identifier; no rename is issued when that name is [origin] itself),
    before the fetch and the checkout of the branch ref.  Afterwards the
    working tree has the one remote, under the derived name and with the
    clone url; and when the host serves the branch the call returns, the
    branch ref checked out. *)
Theorem checkout_fresh_clone (self : PackageManager) (gm : GithubManager)
    (w : World) (url : string) (bs : list string) :
  _config self = Some c →
  _github_manager self = Some gm →
  _path self = Some dir →
  dir ∈ dirs (env w) →
  clone_target_ok dir (env w) = true →
  repos (env w) !! dir = None →
  github (env w) !! repository = Some url →
  hosts (env w) !! url = Some bs →
  ∃ res w' r',
    checkout self w = (res, w')
    ∧ trace w'
      = (trace w
         ++ [EvGithubOpenRepo repository; EvGithubCloneUrl repository]
         ++ clone_events dir url name
         ++ [EvGitFetch dir name; EvGitCheckout dir ref])%list
    ∧ repos (env w') !! dir = Some r'
    ∧ remotes r' = [(name, url)]
    ∧ (branch ∈ bs → is_ok res = true ∧ head r' = Some ref).
Proof.
  intros Hc Hgm Hp Hdir Hempty Hr Hg Hh.
  assert (Hpath : path_ok dir (env w)).
  { unfold path_ok. rewrite (bool_decide_eq_true_2 _ Hdir).
    apply orb_true_r. }
  rewrite (checkout_resolved self gm w url Hc Hgm Hp Hg).
  match goal with |- context [bind _ _ ?w0] => set (w0' := w0) end.
  destruct (reconcile_fresh
              (set_github_manager
                 {| token := token gm; opened := Some repository |} self)
              w0' url bs Hc Hpath Hr Hempty Hh)
    as (w1 & Hrun1 & Hr1 & Hframe1 & _ & Ht1).
  erewrite bind_ok by exact Hrun1.
  destruct (fetch_checkout_run
              (set_repo dir
                 (set_github_manager
                    {| token := token gm; opened := Some repository |} self))
              w1 _ url bs Hc Hr1 (remote_url_single _ _ _))
    as (w2 & Hrun2 & Hr2 & _ & _ & Ht2).
  { destruct Hframe1 as (Hhosts & _). now rewrite Hhosts. }
  rewrite Hrun2. eexists _, w2, _. split; [reflexivity |].
  split_and!; [| exact Hr2 | reflexivity |].
  - rewrite Ht2, Ht1. subst w0'. cbn [trace].
    now rewrite <- !app_assoc.
  - intros Hin. cbn [head].
    now rewrite (has_ref_fetched
                   {| remotes := [(name, url)]; refs := pair name <$> bs;
                      head := hd_error bs |} bs Hin).
Qed.

(** C2: two runs of [checkout] in a row.  After a first run that returned,
    a second run, whatever clone url GitHub resolves to by then, returns
    too and does nothing but resolve that url, fetch the remote of the
    derived name and check out the branch ref: no clone, no remote added
    or renamed.  The working tree never has two remotes of one name, and
    a remote that already has the derived name is taken as it is: the
    remotes, names and urls, are after the second run what they were after
    the first, and after the first what they were before it when the
    remote was there already. *)
Theorem checkout_twice (self self1 : PackageManager) (gm : GithubManager)
    (w w1 : World) (url' : string) :
  _config self = Some c →
  _github_manager self = Some gm →
  _path self = Some dir →
  (∀ r0, repos (env w) !! dir = Some r0 → NoDup (remote_names r0)) →
  checkout self w = (Ok self1, w1) →
  ∃ self2 w2 r1 r2,
    checkout self1 (with_clone_url repository url' w1) = (Ok self2, w2)
    ∧ trace w2
      = (trace w1
         ++ [EvGithubOpenRepo repository; EvGithubCloneUrl repository;
             EvGitFetch dir name; EvGitCheckout dir ref])%list
    ∧ repos (env w1) !! dir = Some r1
    ∧ repos (env w2) !! dir = Some r2
    ∧ NoDup (remote_names r1)
    ∧ NoDup (remote_names r2)
    ∧ name ∈ remote_names r2
    ∧ remotes r2 = remotes r1
    ∧ head r2 = Some ref
    ∧ (∀ r0, repos (env w) !! dir = Some r0 → name ∈ remote_names r0 →
             remotes r1 = remotes r0).
Proof.
  intros Hc Hgm Hp Hwf Hrun.
  destruct (github (env w) !! repository) as [url0 |] eqn:Hg; cycle 1.
  { pose proof (checkout_unresolved self gm w Hc Hgm Hp Hg) as Hfail.
    rewrite Hrun in Hfail. discriminate. }
  rewrite (checkout_resolved self gm w url0 Hc Hgm Hp Hg) in Hrun.
  set (gm' := {| token := token gm; opened := Some repository |}) in *.
  apply bind_inv_ok in Hrun as (remote & wm & Hrec & Hfc).
  apply reconcile_ok_post in Hrec as (-> & Hpm & Hframe0 & rm & Hrm & Hinm & Hcase);
    [| exact Hc].
  cbn [env] in Hframe0, Hcase.
  apply (fetch_checkout_ok_post _ _ _ _ rm) in Hfc
      as (-> & Hframe1 & u & bs & r1 & Hu & Hh & Hr1 & Hrem1 & Href1);
    [| exact Hc | exact Hrm].
  assert (Hnames1 : remote_names r1 = remote_names rm).
  { unfold remote_names. now rewrite Hrem1. }
  assert (Hnd1 : NoDup (remote_names r1)).
  { rewrite Hnames1. destruct (repos (env w) !! dir) as [r0 |] eqn:Hr0.
    - destruct Hcase as [Hnd _]. apply Hnd, Hwf. reflexivity.
    - unfold remote_names. rewrite Hcase. cbn. apply NoDup_singleton. }
  (* the second run *)
  set (s1 := set_repo dir (set_github_manager gm' self)) in *.
  set (w1' := with_clone_url repository url' w1).
  assert (Hg' : github (env w1') !! repository = Some url').
  { subst w1'. cbn. apply lookup_insert_eq. }
  rewrite (checkout_resolved s1 gm' w1' url' Hc eq_refl Hp Hg').
  match goal with |- context [bind _ _ ?w0] => set (w0' := w0) end.
  assert (Hp1 : path_ok dir (env w0')).
  { assert (Hp1' : path_ok dir (env w1))
      by (eapply (path_ok_frame dir (env wm)); eauto).
    exact Hp1'. }
  assert (Hin1 : name ∈ remote_names r1) by now rewrite Hnames1.
  erewrite bind_ok; cycle 1.
  { apply (reconcile_existing _ w0' url' r1); auto. }
  assert (Hu1 : remote_url r1 name = Some u).
  { unfold remote_url in *. now rewrite Hrem1. }
  assert (Hh1 : hosts (env w0') !! u = Some bs).
  { subst w0' w1'. cbn. destruct Hframe1 as (Hhosts & _).
    now rewrite Hhosts. }
  destruct (fetch_checkout_run
              (set_repo dir
                 (set_github_manager
                    {| token := token gm'; opened := Some repository |} s1))
              w0' r1 u bs Hc Hr1 Hu1 Hh1)
    as (w2 & Hrun2 & Hr2 & _ & _ & Ht2).
  assert (Hfound :
    has_ref {| remotes := remotes r1;
               refs := list_union (pair name <$> bs) (refs r1);
               head := head r1 |} ref = true).
  { apply (has_ref_mono r1); [| exact Href1].
    intros nb Hnb. cbn [refs]. apply list_elem_of_union. now right. }
  rewrite Hfound in Hrun2, Hr2.
  eexists _, w2, r1, _.
  split; [exact Hrun2 |].
  split_and!; [| exact Hr1 | exact Hr2 | exact Hnd1 | exact Hnd1 | exact Hin1
               | reflexivity | reflexivity |].
  - rewrite Ht2. subst w0'. cbn [trace]. now rewrite <- app_assoc.
  - intros r0 Hr0 Hin0. rewrite Hr0 in Hcase. destruct Hcase as [_ Hsame].
    rewrite Hrem1. now apply Hsame.
Qed.
End CheckoutProps.

Lemma checkout_fresh_clone_witness :
  ∃ res w' r',
    checkout widgets_manager widgets_world = (res, w')
    ∧ is_ok res = true
    ∧ repos (env w') !! "/store/widgets" = Some r'
    ∧ remotes r' = [("acme", widgets_url)]
    ∧ head r' = Some "acme/main".
Proof.
  destruct (checkout_fresh_clone widgets_descriptor
              {[ "repository" := "acme/widgets"; "branch" := "main" ]}
              "acme/widgets" "main" "/store/widgets"
              eq_refl eq_refl eq_refl
              widgets_manager {| token := "t0ken"; opened := None |}
              widgets_world widgets_url ["main"; "dev"])
    as (res & w' & r' & Hrun & _ & Hr & Hrem & Hok);
    try (vm_compute; reflexivity).
  destruct Hok as [Hres Hhead]; [apply list_elem_of_here |].
  exists res, w', r'. split_and!; auto.
Defined.

(** Paths without a working tree into which nothing is cloned: a path
    that is not there ends [checkout] in [NoSuchPathError] before any
    clone; into a directory that holds a file, and from a url no host
    answers, the clone fails, and no remote is renamed. *)
Lemma checkout_without_clone :
  (repos (env (sample_world (Some "/store"))) !! "/store/widgets" = None
   ∧ checkout widgets_manager (sample_world (Some "/store"))
     = (Raise (NoSuchPathError "/store/widgets"),
        {| env := sample_env (Some "/store"); cache := ∅;
           trace := [EvGithubOpenRepo "acme/widgets";
                     EvGithubCloneUrl "acme/widgets"] |}))
  ∧ (repos (env occupied_world) !! "/store/widgets" = None
     ∧ checkout widgets_manager occupied_world
       = (Raise (GitCommandError "clone"),
          {| env := env occupied_world; cache := ∅;
             trace := [EvGithubOpenRepo "acme/widgets";
                       EvGithubCloneUrl "acme/widgets";
                       EvGitClone widgets_url "/store/widgets"] |}))
  ∧ (repos (env offline_world) !! "/store/widgets" = None
     ∧ checkout widgets_manager offline_world
       = (Raise (GitCommandError "clone"),
          {| env := env offline_world; cache := ∅;
             trace := [EvGithubOpenRepo "acme/widgets";
                       EvGithubCloneUrl "acme/widgets";
                       EvGitClone widgets_url "/store/widgets"] |})).
Proof. split_and!; vm_compute; reflexivity. Qed.

Lemma checkout_twice_witness :
  ∃ self2 w2 r1 r2,
    checkout widgets_manager1
      (with_clone_url "acme/widgets" "https://rotated.example/acme/widgets.git"
         widgets_world1)
    = (Ok self2, w2)
    ∧ repos (env widgets_world1) !! "/store/widgets" = Some r1
    ∧ repos (env w2) !! "/store/widgets" = Some r2
    ∧ NoDup (remote_names r2)
    ∧ remotes r2 = remotes r1.
Proof.
  destruct (checkout_twice widgets_descriptor
              {[ "repository" := "acme/widgets"; "branch" := "main" ]}
              "acme/widgets" "main" "/store/widgets"
              eq_refl eq_refl eq_refl
              widgets_manager widgets_manager1
              {| token := "t0ken"; opened := None |}
              widgets_world widgets_world1
              "https://rotated.example/acme/widgets.git")
    as (self2 & w2 & r1 & r2 & Hrun & _ & Hr1 & Hr2 & _ & Hnd & _ & Hrem & _);
    try (vm_compute; reflexivity).
  { intros r0 Hr0. vm_compute in Hr0. discriminate. }
  exists self2, w2, r1, r2. split_and!; auto.
Defined.


(** ** The derived remote name and the line split *)

Lemma append_cons (a : ascii) (s t : string) :
  String a s ++ t = String a (s ++ t).
Proof. reflexivity. Qed.

Lemma string_of_snoc (l : list ascii) (c : ascii) (t : string) :
  string_of_list_ascii (l ++ [c]) ++ t = string_of_list_ascii l ++ String c t.
Proof.
  induction l as [| a l IH]; [reflexivity |].
  cbn [app string_of_list_ascii]. now rewrite !append_cons, IH.
Qed.

Lemma append_nil_r (s : string) : s ++ "" = s.
Proof.
  induction s as [| a s IH]; [reflexivity | now rewrite append_cons, IH].
Qed.

Lemma length_append (a b : string) :
  String.length (a ++ b) = (String.length a + String.length b)%nat.
Proof.
  induction a as [| x a IH]; [reflexivity |].
  rewrite append_cons. cbn [String.length]. now rewrite IH.
Qed.

Lemma prefix_split (p s : string) :
  String.prefix p s = true → ∃ t, s = p ++ t.
Proof.
  revert s. induction p as [| a p IH]; intros s H.
  - exists s. reflexivity.
  - destruct s as [| b s]; cbn in H; [discriminate |].
    destruct (Ascii.ascii_dec a b) as [-> | Hne]; [| discriminate].
    destruct (IH s H) as [t ->]. exists t. reflexivity.
Qed.

Lemma split_go_skip (sep pre t : string) (cur : list ascii) :
  PyStr.split_go sep (pre ++ t) (String.length pre) cur
  = PyStr.split_go sep t O cur.
Proof.
  induction pre as [| a pre IH].
  - reflexivity.
  - rewrite append_cons. cbn [String.length PyStr.split_go]. exact IH.
Qed.

Lemma split_go_nonempty (sep s : string) (skip : nat) (cur : list ascii) :
  PyStr.split_go sep s skip cur ≠ [].
Proof.
  revert skip cur.
  induction s as [| c s IH]; intros skip cur; cbn [PyStr.split_go].
  - easy.
  - destruct skip; [| apply IH].
    destruct (String.prefix sep (String c s)); [easy | apply IH].
Qed.

Lemma join_cons (sep x : string) (l : list string) :
  l ≠ [] → join sep (x :: l) = x ++ sep ++ join sep l.
Proof. destruct l; [contradiction | reflexivity]. Qed.

Lemma join_split_go (sep : string) (n : nat) :
  sep ≠ "" →
  ∀ (s : string) (cur : list ascii),
    (String.length s < n)%nat →
    join sep (PyStr.split_go sep s O cur)
    = string_of_list_ascii (rev cur) ++ s.
Proof.
  intros Hsep. induction n as [| n IH]; intros s cur Hlen; [lia |].
  destruct s as [| c s].
  - cbn. now rewrite append_nil_r.
  - cbn [PyStr.split_go].
    destruct (String.prefix sep (String c s)) eqn:Hpre.
    + destruct sep as [| a sep']; [contradiction |].
      destruct (prefix_split _ _ Hpre) as [t Ht].
      rewrite append_cons in Ht. inversion Ht; subst.
      cbn [String.length Nat.pred].
      rewrite split_go_skip.
      rewrite join_cons by apply split_go_nonempty.
      rewrite IH.
      * reflexivity.
      * cbn [String.length] in Hlen. rewrite length_append in Hlen. lia.
    + rewrite IH by (cbn [String.length] in Hlen; lia).
      cbn [rev]. apply string_of_snoc.
Qed.

(** X17: the pieces of a split, joined by the separator, are the text that
    was split. *)
Theorem join_split (sep s : string) :
  sep ≠ "" → join sep (PyStr.split sep s) = s.
Proof.
  intros Hsep. unfold PyStr.split.
  now rewrite (join_split_go sep (S (String.length s)) Hsep s []) by lia.
Qed.

Lemma join_split_witness :
  join "\n" (PyStr.split "\n" sample_listing) = sample_listing.
Proof. apply join_split. discriminate. Defined.

Lemma prefix_slash (c : ascii) (s : string) :
  String.prefix "/" (String c s)
  = if Ascii.ascii_dec "/" c then true else false.
Proof. destruct s; simpl; destruct (Ascii.ascii_dec "/" c); reflexivity. Qed.

Lemma split_go_no_slash (s : string) (cur : list ascii) :
  PyStr.contains "/" s = false →
  PyStr.split_go "/" s O cur = [string_of_list_ascii (rev cur) ++ s].
Proof.
  revert cur. induction s as [| c s IH]; intros cur H.
  - cbn. now rewrite append_nil_r.
  - cbn [PyStr.contains] in H. apply orb_false_iff in H as [Hp Hc].
    cbn [PyStr.split_go]. rewrite Hp. rewrite IH by exact Hc.
    cbn [rev]. now rewrite string_of_snoc.
Qed.

Lemma split_go_owner (owner rest : string) (cur : list ascii) :
  PyStr.contains "/" owner = false →
  PyStr.split_go "/" (owner ++ String "/" rest) O cur
  = (string_of_list_ascii (rev cur) ++ owner)
    :: PyStr.split_go "/" rest O [].
Proof.
  revert cur. induction owner as [| c owner IH]; intros cur H.
  - change ("" ++ String "/" rest) with (String "/" rest).
    cbn [PyStr.split_go].
    rewrite prefix_slash.
    destruct (Ascii.ascii_dec "/" "/") as [_ | Hne]; [| contradiction]. cbn [String.length Nat.pred]. now rewrite append_nil_r.
  - cbn [PyStr.contains] in H. apply orb_false_iff in H as [Hp Hc].
    rewrite append_cons. cbn [PyStr.split_go].
    rewrite prefix_slash in Hp |- *.
    destruct (Ascii.ascii_dec "/" c); [discriminate |]. rewrite IH by exact Hc.
    cbn [rev]. now rewrite string_of_snoc.
Qed.

(** X16: the derived remote name of [owner/rest] is [owner], the text
    before the first slash, and a repository identifier without a slash is
    its own remote name. *)
Theorem remote_name_owner (owner rest : string) :
  PyStr.contains "/" owner = false →
  remote_name (owner ++ "/" ++ rest) = owner
  ∧ remote_name owner = owner.
Proof.
  intros H. unfold remote_name, PyStr.split. split.
  - change (owner ++ "/" ++ rest) with (owner ++ String "/" rest).
    now rewrite split_go_owner.
  - now rewrite split_go_no_slash.
Qed.

Lemma remote_name_owner_witness :
  remote_name ("acme" ++ "/" ++ "widgets") = "acme"
  ∧ remote_name "acme" = "acme".
Proof. apply remote_name_owner. reflexivity. Defined.

(** ** More on construction and checkout *)

(** X1: for a local package (its descriptor has [local_path]) the
    constructor takes the configured path as the package path and does
    nothing else but log: no manager, no directory made, no checkout,
    whatever the storage directory; and [checkout] on that instance is a
    no-op. *)
Theorem init_local_package (name p : string) (c : gmap string CfgVal)
    (w : World) :
  packages (config_file (env w)) !! name = Some c →
  c !! "local_path" = Some (VStr p) →
  let self :=
    {| _name := name; _config := Some c; _github_manager := None;
       _repo := None; _branch := None; _path := Some p |} in
  __init__ name w
  = (Ok self,
     {| env := env w; cache := cache w;
        trace := (trace w
                  ++ [EvLog (nl ++ nl ++ "Initializing '" ++ name ++ "'...")])%list |})
  ∧ is_local_package self = true
  ∧ ∀ u, checkout self u = (Ok self, u).
Proof.
  intros Hc Hlocal self.
  assert (Hne : c ≠ ∅).
  { intros ->. rewrite lookup_empty in Hlocal. discriminate. }
  split_and!.
  - unfold __init__.
    erewrite bind_ok by reflexivity. cbn [_config].
    rewrite Hc. unfold config_truthy.
    rewrite bool_decide_eq_false_2 by exact Hne. cbn [negb].
    erewrite bind_ok by reflexivity.
    erewrite bind_ok by reflexivity.
    unfold is_local_package. cbn [_config].
    rewrite Hlocal. rewrite bool_decide_eq_true_2 by eauto.
    unfold config_entry, getitem. cbn [_config].
    erewrite bind_ok; cycle 1.
    { rewrite Hlocal. reflexivity. }
    reflexivity.
  - unfold is_local_package, self. cbn [_config]. rewrite Hlocal.
    now rewrite bool_decide_eq_true_2 by eauto.
  - intros u. reflexivity.
Qed.

Lemma init_local_package_witness :
  __init__ "foo" (sample_world None)
  = (Ok foo_manager,
     {| env := sample_env None; cache := ∅;
        trace := [EvLog (nl ++ nl ++ "Initializing 'foo'...")] |}).
Proof.
  apply (init_local_package "foo" "/ws/foo" foo_descriptor (sample_world None));
    vm_compute; reflexivity.
Defined.

Section CheckoutMore.

Context (c : gmap string CfgVal) (d : gmap string string)
        (repository branch dir : string).
Hypothesis Hgb : c !! "github_branch" = Some (VDict d).
Hypothesis Hrepository : d !! "repository" = Some repository.
Hypothesis Hbranch : d !! "branch" = Some branch.

Let name : string := remote_name repository.
Let ref : string := name ++ "/" ++ branch.

(** [checkout] from the remote [reconcile] leaves, when the host of that
    remote serves the branch. *)
Lemma checkout_from_reconciled (self : PackageManager) (gm : GithubManager)
    (w wm : World) (url u : string) (rm : Repo) (bs : list string) :
  _config self = Some c →
  _github_manager self = Some gm →
  _path self = Some dir →
  github (env w) !! repository = Some url →
  let gm' := {| token := token gm; opened := Some repository |} in
  reconcile (set_github_manager gm' self) dir url
    {| env := env w; cache := cache w;
       trace := (trace w ++ [EvGithubOpenRepo repository;
                             EvGithubCloneUrl repository])%list |}
  = (Ok name, wm) →
  repos (env wm) !! dir = Some rm →
  remote_url rm name = Some u →
  hosts (env wm) !! u = Some bs →
  branch ∈ bs →
  ∃ w',
    checkout self w = (Ok (set_repo dir (set_github_manager gm' self)), w')
    ∧ repos (env w') !! dir
      = Some {| remotes := remotes rm;
                refs := list_union (pair name <$> bs) (refs rm);
                head := Some ref |}
    ∧ git_frame dir (env wm) (env w')
    ∧ cache w' = cache wm
    ∧ trace w' = (trace wm ++ [EvGitFetch dir name; EvGitCheckout dir ref])%list.
Proof.
  intros Hc Hgm Hp Hg gm' Hrec Hrm Hu Hh Hin.
  rewrite (checkout_resolved c d repository dir Hgb Hrepository
             self gm w url Hc Hgm Hp Hg).
  erewrite bind_ok by exact Hrec.
  destruct (fetch_checkout_run c d repository branch dir Hgb Hrepository
              Hbranch (set_repo dir (set_github_manager gm' self))
              wm rm u bs Hc Hrm Hu Hh)
    as (w' & Hrun & Hr' & Hframe & Hcache & Htrace).
  rewrite (has_ref_fetched repository branch rm bs Hin) in Hrun, Hr'.
  exists w'. split_and!; auto.
Qed.




(** X6: when the package path does not exist, [checkout] resolves the clone
    url and then ends in [NoSuchPathError], which its [except] clause does
    not handle: nothing is cloned, no git command is issued and the
    environment is as it was. *)
Theorem checkout_missing_path (self : PackageManager) (gm : GithubManager)
    (w : World) (url : string) :
  _config self = Some c →
  _github_manager self = Some gm →
  _path self = Some dir →
  ¬ path_ok dir (env w) →
  github (env w) !! repository = Some url →
  checkout self w
  = (Raise (NoSuchPathError dir),
     {| env := env w; cache := cache w;
        trace := (trace w ++ [EvGithubOpenRepo repository;
                              EvGithubCloneUrl repository])%list |}).
Proof.
  intros Hc Hgm Hp Hpath Hg.
  rewrite (checkout_resolved c d repository dir Hgb Hrepository
             self gm w url Hc Hgm Hp Hg).
  erewrite bind_raise; [reflexivity |].
  now apply reconcile_missing.
Qed.

End CheckoutMore.

Lemma checkout_missing_path_witness :
  checkout widgets_manager (sample_world (Some "/store"))
  = (Raise (NoSuchPathError "/store/widgets"),
     {| env := sample_env (Some "/store"); cache := ∅;
        trace := [EvGithubOpenRepo "acme/widgets";
                  EvGithubCloneUrl "acme/widgets"] |}).
Proof.
  apply (checkout_missing_path widgets_descriptor
           {[ "repository" := "acme/widgets"; "branch" := "main" ]}
           "acme/widgets" "/store/widgets" eq_refl eq_refl
           widgets_manager {| token := "t0ken"; opened := None |}
           (sample_world (Some "/store")) widgets_url);
    try (vm_compute; reflexivity).
  vm_compute. discriminate.
Defined.



(** X2: the constructor on a remote package with a storage directory, when
    the package path [storage/name] is not there yet, nothing is under it,
    and its parent is a directory: it takes [storage/name] as the package
    path, makes that directory, and checks out: clone from the resolved
    url, the remote renamed to the derived name, fetch, checkout of the
    branch ref.  It returns an instance with that path, and the directory
    holds a working tree with the one remote and the branch ref checked
    out. *)
Theorem init_remote_fresh (name : string) (c : gmap string CfgVal)
    (d : gmap string string) (repository branch sd url : string)
    (bs : list string) (w : World) :
  packages (config_file (env w)) !! name = Some c →
  c !! "local_path" = None →
  c !! "github_branch" = Some (VDict d) →
  d !! "repository" = Some repository →
  d !! "branch" = Some branch →
  repo_storage_directory (config_file (env w)) = Some sd →
  let dir := PyStr.path_join sd name in
  let remote := remote_name repository in
  ¬ path_ok dir (env w) →
  clone_target_ok dir (env w) = true →
  is_directory (PyStr.parent dir) (env w) = true →
  repos (env w) !! dir = None →
  github (env w) !! repository = Some url →
  hosts (env w) !! url = Some bs →
  branch ∈ bs →
  ∃ self w' r',
    __init__ name w = (Ok self, w')
    ∧ _name self = name
    ∧ _path self = Some dir
    ∧ dir ∈ dirs (env w')
    ∧ repos (env w') !! dir = Some r'
    ∧ remotes r' = [(remote, url)]
    ∧ head r' = Some (remote ++ "/" ++ branch)
    ∧ trace w'
      = (trace w
         ++ [EvLog (nl ++ nl ++ "Initializing '" ++ name ++ "'...");
             EvLog ("Checking out Git repository from '" ++ repository
                    ++ "'...");
             EvMkdir dir;
             EvGithubOpenRepo repository; EvGithubCloneUrl repository]
         ++ clone_events dir url remote
         ++ [EvGitFetch dir remote;
             EvGitCheckout dir (remote ++ "/" ++ branch);
             EvLog "✓ Checkout complete"])%list.
Proof.
  intros Hc Hlocal Hgb Hrepository Hbranch Hsd dir remote Hpath Hempty Hparent
    Hr Hg Hh Hin.
  assert (Hne : c ≠ ∅).
  { intros ->. rewrite lookup_empty in Hgb. discriminate. }
  unfold path_ok in Hpath. apply not_true_is_false in Hpath.
  unfold __init__.
  erewrite bind_ok by reflexivity. cbn [_config].
  rewrite Hc. unfold config_truthy.
  rewrite bool_decide_eq_false_2 by exact Hne. cbn [negb].
  erewrite bind_ok by reflexivity.
  erewrite bind_ok by reflexivity.
  unfold is_local_package. cbn [_config env].
  rewrite Hlocal.
  rewrite bool_decide_eq_false_2 by (intros [? ?]; discriminate).
  rewrite Hsd.
  erewrite bind_ok
    by (apply (github_branch_repository c d repository Hgb Hrepository);
        reflexivity).
  erewrite bind_ok by reflexivity.
  erewrite bind_ok by reflexivity.
  fold dir.
  erewrite bind_ok; cycle 1.
  { unfold path_exists, bind, get_env, ret. cbn. rewrite Hpath. reflexivity. }
  erewrite bind_ok; cycle 1.
  { unfold mkdir, path_exists, bind, emit, get_env, put_env, ret.
    cbn [env fst snd]. rewrite Hpath. cbn [env cache trace].
    rewrite Hparent. reflexivity. }
  erewrite bind_ok by reflexivity.
  cbn [env].
  match goal with
  | |- context [bind (checkout ?s) _ ?w0] => set (self0 := s); set (w0' := w0)
  end.
  set (gm := {| token := github_access_token (config_file (env w));
                opened := None |}) in *.
  set (gm' := {| token := token gm; opened := Some repository |}).
  set (w1 := {| env := env w0'; cache := cache w0';
                trace := (trace w0' ++ [EvGithubOpenRepo repository;
                                        EvGithubCloneUrl repository])%list |}).
  assert (Hpath1 : path_ok dir (env w1)).
  { unfold path_ok. cbn.
    rewrite (bool_decide_eq_true_2 (dir ∈ {[dir]} ∪ dirs (env w)))
      by (apply elem_of_union_l, elem_of_singleton; reflexivity).
    apply orb_true_r. }
  assert (Hempty1 : clone_target_ok dir (env w1) = true).
  { apply clone_target_ok_true in Hempty as [Hfile Hunder].
    apply clone_target_ok_true. cbn. split; [exact Hfile |].
    intros p Hp. destruct (decide (p = dir)) as [-> | Hne'].
    - apply under_self.
    - apply Hunder. revert Hp.
      rewrite !elem_of_union, elem_of_singleton. tauto. }
  destruct (reconcile_fresh c d repository dir Hgb Hrepository
              (set_github_manager gm' self0) w1 url bs eq_refl Hpath1 Hr
              Hempty1 Hh)
    as (wm & Hrec & Hrm & Hframe & _ & Htm).
  destruct (checkout_from_reconciled c d repository branch dir
              Hgb Hrepository Hbranch self0 gm w0' wm url url _ bs
              eq_refl eq_refl eq_refl Hg Hrec Hrm)
    as (w2 & Hrun & Hr2 & Hframe2 & _ & Ht2);
    [apply remote_url_single
     | destruct Hframe as (Hhosts & _); now rewrite Hhosts
     | exact Hin |].
  erewrite bind_ok by exact Hrun.
  eexists _, _, _. split; [reflexivity |].
  cbn [_name _path set_repo set_github_manager env trace].
  split; [reflexivity |]. split; [reflexivity |].
  split.
  { destruct Hframe as (_ & _ & _ & Hd1). destruct Hframe2 as (_ & _ & _ & Hd2).
    apply Hd2, Hd1. cbn. apply elem_of_union_l, elem_of_singleton. reflexivity. }
  split; [exact Hr2 |].
  split; [reflexivity |]. split; [reflexivity |].
  rewrite Ht2, Htm. subst w1 w0'. cbn [trace].
  rewrite <- !app_assoc. reflexivity.
Qed.

Lemma init_remote_fresh_witness :
  ∃ self w' r',
    __init__ "widgets" (sample_world (Some "/store")) = (Ok self, w')
    ∧ _path self = Some "/store/widgets"
    ∧ repos (env w') !! "/store/widgets" = Some r'
    ∧ remotes r' = [("acme", widgets_url)]
    ∧ head r' = Some "acme/main".
Proof.
  destruct (init_remote_fresh "widgets" widgets_descriptor
              {[ "repository" := "acme/widgets"; "branch" := "main" ]}
              "acme/widgets" "main" "/store" widgets_url ["main"; "dev"]
              (sample_world (Some "/store")))
    as (self & w' & r' & Hrun & _ & Hp & _ & Hr & Hrem & Hhead & _);
    try (vm_compute; reflexivity).
  { vm_compute. discriminate. }
  { apply list_elem_of_here. }
  exists self, w', r'. split_and!; auto.
Defined.




Section CheckoutPost.

Context (c : gmap string CfgVal) (d : gmap string string)
        (repository branch dir : string).
Hypothesis Hgb : c !! "github_branch" = Some (VDict d).
Hypothesis Hrepository : d !! "repository" = Some repository.
Hypothesis Hbranch : d !! "branch" = Some branch.

Let name : string := remote_name repository.
Let ref : string := name ++ "/" ++ branch.

(** A [reconcile] that returns on an existing working tree keeps its
    remotes, in their order, and its refs. *)
Lemma reconcile_keeps (s : PackageManager) (w w' : World)
    (url remote : string) (r : Repo) :
  _config s = Some c →
  repos (env w) !! dir = Some r →
  reconcile s dir url w = (Ok remote, w') →
  ∃ r', repos (env w') !! dir = Some r'
        ∧ remotes r `prefix_of` remotes r'
        ∧ refs r' = refs r.
Proof.
  intros Hs Hr Hrun.
  destruct (decide (path_ok dir (env w))) as [Hp | Hp].
  2: { rewrite (reconcile_missing dir) in Hrun by exact Hp. discriminate. }
  destruct (decide (name ∈ remote_names r)) as [Hin | Hin].
  - rewrite (reconcile_existing c d repository dir Hgb Hrepository
               s w url r Hs Hp Hr Hin) in Hrun.
    inversion Hrun; subst. exists r. split_and!; auto.
  - rewrite (reconcile_add c d repository dir Hgb Hrepository
               s w url r Hs Hp Hr Hin) in Hrun.
    inversion Hrun; subst. cbn [env].
    eexists. split; [apply lookup_insert_eq |]. cbn [remotes refs].
    split; [now apply prefix_app_r | reflexivity].
Qed.

(** A [fetch_checkout] that returns has the branch ref checked out. *)
Lemma fetch_checkout_ok_head (s s' : PackageManager) (w w' : World)
    (r : Repo) :
  _config s = Some c →
  repos (env w) !! dir = Some r →
  fetch_checkout s dir name w = (Ok s', w') →
  ∃ r', repos (env w') !! dir = Some r'
        ∧ remotes r' = remotes r
        ∧ (∀ nb, nb ∈ refs r → nb ∈ refs r')
        ∧ head r' = Some ref
        ∧ has_ref r' ref = true.
Proof.
  intros Hs Hr Hrun. unfold ref, name in *.
  destruct (fetch_checkout_ok_post c d repository branch dir Hgb Hrepository
              Hbranch s s' w w' r Hs Hr Hrun)
    as (_ & _ & u & bs & _ & Hu & Hh & _).
  destruct (fetch_checkout_run c d repository branch dir Hgb Hrepository
              Hbranch s w r u bs Hs Hr Hu Hh)
    as (w0 & Hrun0 & Hr0 & _).
  rewrite Hrun0 in Hrun.
  destruct (has_ref _ _) eqn:Hfound; [| discriminate].
  inversion Hrun; subst.
  eexists. split; [exact Hr0 |]. cbn [remotes refs head].
  split_and!; auto.
  intros nb Hnb. apply list_elem_of_union. now right.
Qed.

(** X7: whenever [checkout] returns, for an instance with a manager and a
    path, the package path exists and holds a working tree that has the
    remote of the derived name and the branch ref, which is what is checked
    out.  A working tree that was there before has kept all its remotes, in
    their order and with their urls, and all its refs. *)
Theorem checkout_converged (self self1 : PackageManager) (gm : GithubManager)
    (w w1 : World) :
  _config self = Some c →
  _github_manager self = Some gm →
  _path self = Some dir →
  checkout self w = (Ok self1, w1) →
  ∃ r1,
    path_ok dir (env w1)
    ∧ repos (env w1) !! dir = Some r1
    ∧ name ∈ remote_names r1
    ∧ has_ref r1 ref = true
    ∧ head r1 = Some ref
    ∧ _repo self1 = Some dir
    ∧ ∀ r0, repos (env w) !! dir = Some r0 →
            remotes r0 `prefix_of` remotes r1
            ∧ ∀ nb, nb ∈ refs r0 → nb ∈ refs r1.
Proof.
  intros Hc Hgm Hp Hrun.
  destruct (github (env w) !! repository) as [url0 |] eqn:Hg; cycle 1.
  { pose proof (checkout_unresolved c d repository dir Hgb Hrepository
                  self gm w Hc Hgm Hp Hg) as Hfail.
    rewrite Hrun in Hfail. discriminate. }
  rewrite (checkout_resolved c d repository dir Hgb Hrepository
             self gm w url0 Hc Hgm Hp Hg) in Hrun.
  apply bind_inv_ok in Hrun as (remote & wm & Hrec & Hfc).
  pose proof Hrec as Hrec'.
  apply (reconcile_ok_post c d repository dir Hgb Hrepository) in Hrec'
      as (-> & Hpm & _ & rm & Hrm & Hinm & _); [| exact Hc].
  pose proof Hfc as Hfc'.
  apply (fetch_checkout_ok_post c d repository branch dir Hgb Hrepository
           Hbranch _ _ _ _ rm) in Hfc'
      as (-> & Hframe1 & _); [| exact Hc | exact Hrm].
  pose proof Hfc as Hfc''.
  apply (fetch_checkout_ok_head _ _ _ _ rm) in Hfc''
      as (r1 & Hr1 & Hrem1 & Hrefs1 & Hhead1 & Href1);
    [| exact Hc | exact Hrm].
  exists r1. split_and!; auto.
  - eapply path_ok_frame; eauto.
  - unfold remote_names in *. now rewrite Hrem1.
  - intros r0 Hr0.
    apply (reconcile_keeps _ _ _ _ _ r0) in Hrec
        as (rm' & Hrm' & Hpre & Hrefs); [| exact Hc | exact Hr0].
    rewrite Hrm in Hrm'. inversion Hrm'; subst rm'.
    rewrite Hrem1. split; [exact Hpre |].
    intros nb Hnb. apply Hrefs1. now rewrite Hrefs.
Qed.

End CheckoutPost.

Lemma checkout_converged_witness :
  ∃ r1,
    repos (env widgets_world1) !! "/store/widgets" = Some r1
    ∧ remote_name "acme/widgets" ∈ remote_names r1
    ∧ head r1 = Some "acme/main".
Proof.
  destruct (checkout_converged widgets_descriptor
              {[ "repository" := "acme/widgets"; "branch" := "main" ]}
              "acme/widgets" "main" "/store/widgets"
              eq_refl eq_refl eq_refl
              widgets_manager widgets_manager1
              {| token := "t0ken"; opened := None |}
              widgets_world widgets_world1)
    as (r1 & _ & Hr1 & Hin & _ & Hhead & _);
    try (vm_compute; reflexivity).
  exists r1. split_and!; auto.
Defined.


(** ** Confinement *)

Lemma confined_to_refl (dir : string) (w : World) : confined_to dir w w.
Proof.
  unfold confined_to. split_and!; auto; intros p _; split_and!; auto.
Qed.

Lemma confined_to_trans (dir : string) (w1 w2 w3 : World) :
  confined_to dir w1 w2 → confined_to dir w2 w3 → confined_to dir w1 w3.
Proof.
  unfold confined_to.
  intros (Hc & Hpl & Hsp & Hws & Hh & Hg & Hcf & Hd & Ht)
         (Hc' & Hpl' & Hsp' & Hws' & Hh' & Hg' & Hcf' & Hd' & Ht').
  split_and!; try congruence.
  - intros p Hp. destruct (Hd p Hp) as (Hf1 & Hd1 & Hr1 & Hm1).
    destruct (Hd' p Hp) as (Hf2 & Hd2 & Hr2 & Hm2).
    split_and!.
    + now rewrite Hf2.
    + now rewrite Hd2.
    + congruence.
    + intros Hne. now rewrite Hm2, Hm1.
  - now transitivity (trace w2).
Qed.

Lemma confined_ret {A} (dir : string) (a : A) : confined dir (ret a).
Proof. intros w. apply confined_to_refl. Qed.

Lemma confined_raise {A} (dir : string) (e : Exn) :
  confined dir (raise (A := A) e).
Proof. intros w. apply confined_to_refl. Qed.

Lemma confined_bind {A B} (dir : string) (m : M A) (f : A → M B) :
  confined dir m → (∀ a, confined dir (f a)) → confined dir (bind m f).
Proof.
  intros Hm Hf w. unfold bind. specialize (Hm w).
  destruct (m w) as [[a | e] w1]; cbn [snd] in *; [| exact Hm].
  eapply confined_to_trans; [exact Hm | apply Hf].
Qed.

Lemma confined_try {A} (dir : string) (body handler : M A)
    (handles : Exn → bool) :
  confined dir body → confined dir handler →
  confined dir (try_except body handles handler).
Proof.
  intros Hb Hh w. unfold try_except. specialize (Hb w).
  destruct (body w) as [[a | e] w1]; cbn [snd] in *; [exact Hb |].
  destruct (handles e); [| exact Hb].
  eapply confined_to_trans; [exact Hb | apply Hh].
Qed.

Lemma confined_of_option {A} (dir : string) (o : option A) (e : Exn) :
  confined dir (of_option o e).
Proof. destruct o; [apply confined_ret | apply confined_raise]. Qed.

Lemma confined_emit (dir : string) (ev : Event) : confined dir (emit ev).
Proof.
  intros w. unfold confined_to, emit. cbn.
  split_and!; auto. now apply prefix_app_r.
Qed.

Lemma confined_get_env (dir : string) : confined dir get_env.
Proof. intros w. apply confined_to_refl. Qed.

Lemma under_git (dir : string) : under dir (dir ++ "/.git") = true.
Proof.
  unfold under, PyStr.startswith.
  induction dir as [| a dir IH]; [reflexivity |].
  change (String a dir ++ "/.git") with (String a (dir ++ "/.git")).
  change (String a dir ++ "/") with (String a (dir ++ "/")).
  cbn [String.prefix]. destruct (ascii_dec a a); [exact IH | contradiction].
Qed.

(** Directories made at or under [dir], and modification times set at
    [dir] and at its parent. *)
Lemma confined_touch (dir : string) (w : World) (ds : gset string)
    (m : gmap string Z) :
  (∀ p, outside dir p → p ∉ ds) →
  (∀ p, outside dir p → p ≠ PyStr.parent dir →
        m !! p = mtimes (env w) !! p) →
  confined_to dir w
    (put_env (set_mtimes m (set_dirs (ds ∪ dirs (env w)) (env w))) w).2.
Proof.
  intros Hds Hm. unfold confined_to, put_env. cbn. split_and!; auto.
  intros p Hp. split_and!; auto.
  rewrite elem_of_union. split; [| now right].
  intros [Hin | Hin]; [now apply Hds in Hin | exact Hin].
Qed.

Lemma confined_mkdir_env (dir : string) (w : World) (t : Z) :
  confined_to dir w
    (put_env
       (set_mtimes (<[dir := t]> (<[PyStr.parent dir := t]> (mtimes (env w))))
          (set_dirs ({[dir]} ∪ dirs (env w)) (env w))) w).2.
Proof.
  apply confined_touch.
  - intros p [Hne _] Hin. apply elem_of_singleton in Hin. contradiction.
  - intros p [Hne _] Hpar. now rewrite !lookup_insert_ne.
Qed.

Lemma confined_clone_env (dir : string) (w : World) (t : Z) :
  confined_to dir w
    (put_env
       (set_mtimes (<[dir := t]> (mtimes (env w)))
          (set_dirs ({[dir; dir ++ "/.git"]} ∪ dirs (env w)) (env w))) w).2.
Proof.
  apply confined_touch.
  - intros p [Hne Hu] Hin.
    apply elem_of_union in Hin as [Hin | Hin];
      apply elem_of_singleton in Hin; [contradiction |].
    subst p. rewrite under_git in Hu. discriminate.
  - intros p [Hne _] _. now rewrite lookup_insert_ne.
Qed.

Lemma confined_put_repo (dir : string) (r : Repo) :
  confined dir (put_repo dir r).
Proof.
  intros w. unfold confined_to, put_repo, bind, get_env, put_env. cbn.
  split_and!; auto.
  intros p [Hne _]. split_and!; auto. now rewrite lookup_insert_ne.
Qed.

Lemma confined_get_repo (dir : string) : confined dir (get_repo dir).
Proof.
  unfold get_repo. apply confined_bind; [apply confined_get_env |].
  intros e. apply confined_of_option.
Qed.

Create HintDb confined.
#[local] Hint Resolve confined_ret confined_raise confined_of_option
  confined_emit confined_get_env confined_put_repo confined_get_repo
  : confined.

Ltac confined_step :=
  first
    [ solve [auto with confined]
    | apply confined_try
    | apply confined_bind; [| intros ?]
    | match goal with
      | |- confined _ (if ?b then _ else _) => destruct b
      | |- confined _ (match ?o with _ => _ end) => destruct o
      end ].

Lemma confined_path_exists (dir p : string) : confined dir (path_exists p).
Proof. unfold path_exists. repeat confined_step. Qed.

Lemma confined_github_branch (dir : string) (self : PackageManager)
    (k : string) :
  confined dir (github_branch self k).
Proof.
  unfold github_branch, config_entry, getitem. repeat confined_step.
Qed.

Lemma confined_open_repo (dir : string) (g : GithubManager) (r : string) :
  confined dir (open_repo g r).
Proof.
  unfold open_repo. apply confined_bind; [auto with confined | intros _].
  apply confined_bind; [auto with confined | intros e].
  destruct (github e !! r); auto with confined.
Qed.

Lemma confined_get_clone_url (dir : string) (g : GithubManager) :
  confined dir (get_clone_url g).
Proof. unfold get_clone_url. repeat confined_step. Qed.

Lemma confined_Repo_open (dir : string) : confined dir (Repo_open dir).
Proof.
  unfold Repo_open, pass.
  apply confined_bind; [apply confined_path_exists | intros ex].
  destruct ex; cbn [negb]; repeat confined_step.
Qed.

Lemma confined_remote_exists (dir n : string) :
  confined dir (remote_exists dir n).
Proof. unfold remote_exists. repeat confined_step. Qed.

Lemma confined_remote_add (dir n u : string) :
  confined dir (remote_add dir n u).
Proof. unfold remote_add. repeat confined_step. Qed.

Lemma confined_clone_from (dir u : string) : confined dir (clone_from u dir).
Proof.
  unfold clone_from.
  apply confined_bind; [auto with confined | intros _].
  intros w. unfold bind at 1. unfold get_env at 1.
  destruct (clone_target_ok dir (env w)); [| apply confined_to_refl].
  destruct (hosts (env w) !! u) as [bs |]; [| apply confined_to_refl].
  unfold bind. cbn [put_env].
  eapply confined_to_trans; [apply confined_clone_env |].
  apply confined_put_repo.
Qed.

Lemma confined_repo_remote (dir : string) : confined dir (repo_remote dir).
Proof.
  unfold repo_remote.
  apply confined_bind; [apply confined_remote_exists | intros ex].
  destruct ex; auto with confined.
Qed.

Lemma confined_remote_rename (dir old new : string) :
  confined dir (remote_rename dir old new).
Proof. unfold remote_rename. repeat confined_step. Qed.

Lemma confined_remote_fetch (dir n : string) :
  confined dir (remote_fetch dir n).
Proof. unfold remote_fetch. repeat confined_step. Qed.

Lemma confined_git_checkout (dir ref : string) :
  confined dir (git_checkout dir ref).
Proof. unfold git_checkout. repeat confined_step. Qed.

Lemma confined_log_message (dir msg : string) :
  confined dir (log_message msg).
Proof. apply confined_emit. Qed.

Lemma confined_mkdir (dir : string) : confined dir (mkdir dir).
Proof.
  unfold mkdir.
  apply confined_bind; [auto with confined | intros _].
  apply confined_bind; [apply confined_path_exists | intros ex].
  destruct ex; [auto with confined |].
  intros w. unfold bind, get_env.
  destruct (is_directory (PyStr.parent dir) (env w));
    [apply confined_mkdir_env |].
  destruct (bool_decide _); apply confined_to_refl.
Qed.

#[local] Hint Resolve confined_path_exists confined_github_branch
  confined_open_repo confined_get_clone_url confined_Repo_open
  confined_remote_exists confined_remote_add confined_clone_from
  confined_repo_remote confined_remote_rename confined_remote_fetch
  confined_git_checkout confined_log_message confined_mkdir : confined.

Lemma confined_checkout (dir : string) (self : PackageManager) :
  _path self = Some dir ∨ _path self = None →
  confined dir (checkout self).
Proof.
  intros Hp. unfold checkout.
  destruct (_config self); [| auto with confined].
  destruct (_github_manager self) as [gm |]; [| auto with confined].
  unfold self_path.
  destruct Hp as [-> | ->]; cbn [of_option].
  - intros w. erewrite bind_ok by reflexivity. revert w.
    apply (confined_bind dir); [auto with confined | intros repository].
    apply (confined_bind dir); [auto with confined | intros gm0].
    apply (confined_bind dir); [auto with confined | intros clone_url].
    apply (confined_bind dir).
    + apply confined_try; repeat confined_step.
    + intros remote. repeat confined_step.
  - intros w. apply confined_to_refl.
Qed.

Lemma confined_bind_ret {A B} (dir : string) (a : A) (f : A → M B) :
  confined dir (f a) → confined dir (bind (ret a) f).
Proof. intros H w. exact (H w). Qed.

Lemma confined_pass (dir : string) : confined dir pass.
Proof. apply confined_ret. Qed.

(** X8: [checkout], however it ends, is confined to the package path: the
    cache, the platform, the module search path, the installed
    distributions, the hosts, the GitHub resolution and the configuration
    are as they were; so is every file, directory and working tree that is
    neither the package path nor under it, and the modification time of
    every such path other than the parent of the package path; the trace
    is only added to.  Nothing is stated of the files, directories and
    modification times at or under the package path, which git writes. *)
Theorem checkout_confined (self : PackageManager) (dir : string) (w : World) :
  _path self = Some dir →
  confined_to dir w (checkout self w).2.
Proof. intros Hp. apply confined_checkout. now left. Qed.

Lemma checkout_confined_witness :
  confined_to "/store/widgets" widgets_world
    (checkout widgets_manager widgets_world).2.
Proof. apply checkout_confined. reflexivity. Defined.

(** X4: the constructor, however it ends, only adds to the trace and never
    writes the cache.  Without a storage directory it leaves the whole
    environment as it was.  With one, it is confined to the package path
    [storage/name]: the platform, the module search path, the installed
    distributions, the hosts, the GitHub resolution and the configuration
    are as they were; so is every file, directory and working tree that is
    neither that path nor under it, and the modification time of every
    such path other than the parent of [storage/name], in which the
    directory is made.  Nothing is stated of the files, directories and
    modification times at or under [storage/name]. *)
Theorem init_confined (name : string) (w : World) :
  match repo_storage_directory (config_file (env w)) with
  | Some sd => confined_to (PyStr.path_join sd name) w (__init__ name w).2
  | None =>
      env (__init__ name w).2 = env w
      ∧ cache (__init__ name w).2 = cache w
      ∧ trace w `prefix_of` trace (__init__ name w).2
  end.
Proof.
  destruct (repo_storage_directory (config_file (env w))) as [sd |] eqn:Hsd.
  - set (dir := PyStr.path_join sd name).
    unfold __init__.
    erewrite bind_ok by reflexivity. cbn [_config].
    destruct (negb (config_truthy (packages (config_file (env w)) !! name)));
      [apply confined_to_refl |].
    erewrite bind_ok by reflexivity.
    erewrite bind_ok by reflexivity.
    cbn [env].
    unfold log_message, emit at 1. cbn [snd].
    match goal with
    | |- confined_to _ _ (?m ?w1).2 =>
        apply (confined_to_trans dir w w1);
          [exact (confined_emit dir _ w)
          | generalize w1; change (confined dir m)]
    end.
    destruct (is_local_package _).
    + apply confined_bind; [| intros v; destruct v; auto with confined].
      unfold config_entry, getitem. cbn [_config].
      destruct (packages (config_file (env w)) !! name); auto with confined.
    + rewrite Hsd.
      apply confined_bind; [apply confined_github_branch | intros repository].
      apply confined_bind; [apply confined_log_message | intros _].
      unfold self_path. cbn [set_path _path of_option].
      apply confined_bind_ret.
      apply confined_bind; [apply confined_path_exists | intros ex].
      apply confined_bind.
      { destruct ex; [apply confined_pass | apply confined_mkdir]. }
      intros _.
      apply confined_bind; [apply confined_get_env | intros e].
      apply confined_bind.
      { apply confined_checkout. left. reflexivity. }
      intros self'.
      apply confined_bind; [apply confined_log_message | intros _].
      apply confined_ret.
  - unfold __init__, bind, get_env, log_message, emit, config_entry, getitem,
      of_option, ret, raise.
    cbn [env cache trace fst snd _config].
    destruct (negb (config_truthy (packages (config_file (env w)) !! name)));
      [cbn; auto |].
    rewrite Hsd.
    destruct (is_local_package _).
    + destruct (packages (config_file (env w)) !! name) as [c |];
        [destruct (c !! "local_path") as [[] |] |];
        cbn; split_and!; auto; now apply prefix_app_r.
    + cbn. split_and!; auto. now apply prefix_app_r.
Qed.

(** ** More on install and build *)

Section InstallMore.
Context (sh : Shell) (strat : Strategy).

(** X9: the gate of [install].  With the cached modified timestamp at least
    the modification time of the package path, [install] returns at once and
    the world is as it was: no log, no command, no routine, no store.  With
    it strictly less, and the steps before the routine returning normally,
    the installation routine is invoked, once, whether it then succeeds or
    not. *)
Theorem install_gate (self : PackageManager) (w : World) (dir : string)
    (mtime : Z) :
  _path self = Some dir →
  mtimes (env w) !! dir = Some mtime →
  let cached :=
    get_package_modified_timestamp (cache w) (_name self)
      (is_local_package self) in
  (mtime ≤ cached → install sh strat self w = (Ok (), w))
  ∧ (cached < mtime →
     ∀ e1 dist,
       platform_step sh dir (env w) = (Ok (), e1) →
       working_set e1 !! _name self = Some dist →
       count_events is_install_routine (trace (install sh strat self w).2)
       = S (count_events is_install_routine (trace w))).
Proof.
  intros Hp Hm cached. split.
  - intros Hle. now apply (install_closed sh strat self w dir mtime).
  - intros Hlt e1 dist Hplat Hdist.
    rewrite (install_open sh strat self w dir mtime e1 dist Hp Hm Hlt Hplat
               Hdist).
    cbn zeta.
    destruct (execute_package_specific_installation_routine strat self e1)
      as [[[] | x] e2]; cbn [snd trace];
      rewrite !count_events_app, platform_events_no_routine;
      unfold count_events; cbn; lia.
Qed.

(** X10: on a platform whose name starts with [win], [install], its gate
    open, first runs [npm config set script-shell powershell] in the package
    path.  When that command fails [install] ends in its exception: the
    installation routine is not invoked and nothing is stored.  When it
    succeeds the routine follows it. *)
Theorem install_script_shell (self : PackageManager) (w : World)
    (dir : string) (mtime : Z) :
  _path self = Some dir →
  mtimes (env w) !! dir = Some mtime →
  get_package_modified_timestamp (cache w) (_name self)
    (is_local_package self) < mtime →
  PyStr.startswith (platform (env w)) "win" = true →
  (∀ x e1,
     exec sh script_shell_cmd dir (env w) = (Raise x, e1) →
     install sh strat self w
     = (Raise x,
        {| env := e1; cache := cache w;
           trace := (trace w ++ [EvLog (installing_msg self);
                                 EvExec script_shell_cmd dir])%list |}))
  ∧ (∀ e1 dist,
       exec sh script_shell_cmd dir (env w) = (Ok (), e1) →
       working_set e1 !! _name self = Some dist →
       trace (install sh strat self w).2
       = (trace w
          ++ [EvLog (installing_msg self);
              EvExec script_shell_cmd dir;
              EvLog "Successfully set npm script-shell to powershell.";
              EvInstallRoutine (_name self)])%list).
Proof.
  intros Hp Hm Hlt Hwin. split.
  - intros x e1 Hexec. unfold install.
    erewrite bind_ok by reflexivity.
    unfold self_path. rewrite Hp. cbn [of_option].
    erewrite bind_ok by reflexivity.
    unfold getmtime.
    erewrite bind_ok; cycle 1.
    { erewrite bind_ok by reflexivity. rewrite Hm. reflexivity. }
    apply Z.ltb_lt in Hlt. rewrite Hlt.
    erewrite bind_ok by reflexivity.
    erewrite bind_ok by reflexivity.
    cbn [env]. rewrite Hwin.
    erewrite bind_raise; [reflexivity |].
    erewrite bind_ok by reflexivity.
    erewrite bind_raise; [reflexivity |].
    unfold run_exec. erewrite bind_ok by reflexivity.
    unfold lift_env. cbn [env cache trace]. rewrite Hexec.
    now rewrite <- app_assoc.
  - intros e1 dist Hexec Hdist.
    rewrite (install_open sh strat self w dir mtime e1 dist Hp Hm Hlt);
      [| unfold platform_step; now rewrite Hwin | exact Hdist].
    cbn zeta. unfold platform_events. rewrite Hwin.
    destruct (execute_package_specific_installation_routine strat self e1)
      as [[[] | x] e2]; reflexivity.
Qed.

(** X11: when [pkg_resources] has no distribution of the package name,
    [install], its gate open, ends in [DistributionNotFound] before the
    installation routine: the routine is not invoked and nothing is stored,
    so a package that was never installed is not installed by [install]. *)
Theorem install_distribution_missing (self : PackageManager) (w : World)
    (dir : string) (mtime : Z) (e1 : Env) :
  _path self = Some dir →
  mtimes (env w) !! dir = Some mtime →
  get_package_modified_timestamp (cache w) (_name self)
    (is_local_package self) < mtime →
  platform_step sh dir (env w) = (Ok (), e1) →
  working_set e1 !! _name self = None →
  install sh strat self w
  = (Raise (DistributionNotFound (_name self)),
     {| env := e1; cache := cache w;
        trace := (trace w ++ [EvLog (installing_msg self)]
                  ++ platform_events dir (env w))%list |}).
Proof.
  intros Hp Hm Hlt Hplat Hdist. unfold install.
  erewrite bind_ok by reflexivity.
  unfold self_path. rewrite Hp. cbn [of_option].
  erewrite bind_ok by reflexivity.
  unfold getmtime.
  erewrite bind_ok; cycle 1.
  { erewrite bind_ok by reflexivity. rewrite Hm. reflexivity. }
  apply Z.ltb_lt in Hlt. rewrite Hlt.
  erewrite bind_ok by reflexivity.
  erewrite bind_ok by reflexivity.
  cbn [env].
  unfold platform_step, platform_events in *.
  destruct (PyStr.startswith (platform (env w)) "win") eqn:Hwin.
  - erewrite bind_ok; cycle 1.
    { erewrite bind_ok by reflexivity.
      erewrite bind_ok; cycle 1.
      { unfold run_exec. erewrite bind_ok by reflexivity.
        unfold lift_env. cbn [env]. rewrite Hplat. reflexivity. }
      reflexivity. }
    erewrite bind_raise; [reflexivity |].
    unfold get_distribution. erewrite bind_ok by reflexivity.
    cbn [env cache trace]. rewrite Hdist. cbn [of_option].
    unfold raise. now rewrite <- !app_assoc.
  - inversion Hplat; subst e1.
    erewrite bind_ok by reflexivity.
    erewrite bind_raise; [reflexivity |].
    unfold get_distribution. erewrite bind_ok by reflexivity.
    cbn [env cache trace]. rewrite Hdist. cbn [of_option].
    unfold raise. now rewrite world_eta || reflexivity.
Qed.


(** X12: [get_dist_egg_link] gives [None] whatever the module search path
    and the file system hold, and [install] never removes a file: whatever
    the package, the shell, the package kind and the world, and however the
    call ends, it issues no [os.remove]. *)
Theorem install_never_removes (self : PackageManager) (w : World) :
  (∀ dist u, get_dist_egg_link dist u = (Ok None, u))
  ∧ count_events is_remove (trace (install sh strat self w).2)
    = count_events is_remove (trace w).
Proof.
  split; [intros dist u; apply get_dist_egg_link_None |].
  set (P := λ res : Result unit * World,
         count_events is_remove (trace res.2)
         = count_events is_remove (trace w)).
  change (P (install sh strat self w)).
  assert (Hsame : ∀ r w',
    count_events is_remove (trace w') = count_events is_remove (trace w) →
    P (r, w')).
  { intros r w' H. exact H. }
  unfold install.
  erewrite bind_ok by reflexivity.
  unfold self_path. destruct (_path self) as [dir |]; cbn [of_option].
  2: { now apply Hsame. }
  erewrite bind_ok by reflexivity.
  unfold getmtime. unfold bind at 1. unfold bind at 1. unfold get_env at 1.
  destruct (mtimes (env w) !! dir) as [mtime |]; cbn [of_option ret raise].
  2: { now apply Hsame. }
  destruct (_ <? mtime).
  2: { now apply Hsame. }
  erewrite bind_ok by reflexivity.
  erewrite bind_ok by reflexivity.
  unfold bind at 1.
  match goal with
  | |- context [match ?m ?w0 with _ => _ end] =>
      assert (Hpre : ∃ r w1, m w0 = (r, w1)
                ∧ count_events is_remove (trace w1)
                  = count_events is_remove (trace w))
  end.
  { cbn [env]. destruct (PyStr.startswith _ _).
    - unfold run_exec, bind, emit, lift_env, log_message. cbn.
      destruct (exec sh script_shell_cmd dir (env w)) as [[[] | x] e1]; cbn;
        eexists _, _; (split; [reflexivity |]); cbn [trace];
        rewrite !count_events_app; unfold count_events; cbn; lia.
    - eexists _, _. split; [reflexivity |]. cbn [trace].
      rewrite count_events_app. unfold count_events. cbn. lia. }
  destruct Hpre as (r & w1 & -> & Hc1).
  destruct r as [[] | x]; [| now apply Hsame].
  unfold get_distribution. unfold bind at 1. unfold bind at 1.
  unfold get_env at 1.
  destruct (working_set (env w1) !! _name self) as [dist |];
    cbn [of_option ret raise]; [| now apply Hsame].
  erewrite bind_ok by apply get_dist_egg_link_None.
  erewrite bind_ok by reflexivity.
  unfold call_installation_routine, cache_store_modified.
  unfold bind, emit, lift_env, get_env, get_cache, put_cache. cbn.
  destruct (execute_package_specific_installation_routine strat self (env w1))
    as [[[] | x] e2] eqn:Hr; cbn; apply Hsame; cbn [trace];
    rewrite count_events_app, Hc1; unfold count_events; cbn; lia.
Qed.

End InstallMore.

(** X13: with the hooks of [PackageManager] itself, which a package kind is
    to override, [install] on an open gate ends in [NotImplementedError]
    after its preparation and stores nothing, and [build] ends in
    [NotImplementedError] at once, the world as it was. *)
Theorem base_hooks_not_implemented (sh : Shell) (self : PackageManager)
    (w : World) (dir : string) (mtime : Z) (e1 : Env) (dist : Distribution) :
  _path self = Some dir →
  mtimes (env w) !! dir = Some mtime →
  get_package_modified_timestamp (cache w) (_name self)
    (is_local_package self) < mtime →
  platform_step sh dir (env w) = (Ok (), e1) →
  working_set e1 !! _name self = Some dist →
  (install sh base_strategy self w).1 = Raise NotImplementedError
  ∧ cache (install sh base_strategy self w).2 = cache w
  ∧ build base_strategy self w = (Raise NotImplementedError, w).
Proof.
  intros Hp Hm Hlt Hplat Hdist.
  rewrite (install_open sh base_strategy self w dir mtime e1 dist Hp Hm Hlt
             Hplat Hdist).
  cbn zeta. cbn [base_strategy execute_package_specific_installation_routine
                   fst snd cache].
  split_and!; try reflexivity.
  unfold build. erewrite bind_ok by reflexivity.
  unfold call_get_build_timestamp, lift_env, bind. cbn.
  now rewrite world_eta.
Qed.

Lemma base_hooks_not_implemented_witness :
  (install sample_shell base_strategy foo_manager (sample_world None)).1
  = Raise NotImplementedError
  ∧ build base_strategy foo_manager (sample_world None)
    = (Raise NotImplementedError, sample_world None).
Proof.
  destruct (base_hooks_not_implemented sample_shell foo_manager
              (sample_world None) "/ws/foo" 100 (sample_env None)
              {| project_name := "foo" |})
    as (H1 & _ & H3); try (vm_compute; reflexivity).
  split; assumption.
Defined.

Lemma install_gate_witness :
  install sample_shell sample_strategy foo_manager
    {| env := sample_env None;
       cache := store_package_modified_timestamp ∅ "foo" true 100;
       trace := [] |}
  = (Ok (),
     {| env := sample_env None;
        cache := store_package_modified_timestamp ∅ "foo" true 100;
        trace := [] |}).
Proof.
  apply (install_gate sample_shell sample_strategy foo_manager _ "/ws/foo" 100);
    vm_compute; try reflexivity; discriminate.
Defined.



Lemma install_script_shell_witness :
  install failing_shell sample_strategy foo_manager
    {| env := windows_env; cache := ∅; trace := [] |}
  = (Raise (CalledProcessError script_shell_cmd),
     {| env := windows_env; cache := ∅;
        trace := [EvLog (installing_msg foo_manager);
                  EvExec script_shell_cmd "/ws/foo"] |}).
Proof.
  apply (install_script_shell failing_shell sample_strategy foo_manager
           {| env := windows_env; cache := ∅; trace := [] |} "/ws/foo" 100);
    vm_compute; reflexivity.
Defined.

Lemma install_distribution_missing_witness :
  install sample_shell sample_strategy foo_manager
    {| env := windows_env; cache := ∅; trace := [] |}
  = (Raise (DistributionNotFound "foo"),
     {| env := windows_env; cache := ∅;
        trace := [EvLog (installing_msg foo_manager);
                  EvExec script_shell_cmd "/ws/foo";
                  EvLog "Successfully set npm script-shell to powershell."] |}).
Proof.
  apply (install_distribution_missing sample_shell sample_strategy foo_manager
           {| env := windows_env; cache := ∅; trace := [] |} "/ws/foo" 100
           windows_env);
    vm_compute; reflexivity.
Defined.

(** ** More on the link queries *)

Lemma strip_slash_snoc (p0 : string) (c : ascii) (w : World) :
  strip_slash (p0 ++ String c "") w
  = (Ok (if Ascii.eqb c "/" then p0 else p0 ++ String c ""), w).
Proof.
  unfold strip_slash. rewrite index_last. cbn [of_option].
  erewrite bind_ok by reflexivity. unfold ret. f_equal. f_equal.
  destruct (Ascii.eqb c "/"); [| reflexivity].
  unfold PyStr.slice_to. rewrite length_snoc.
  replace (Z.of_nat (S (String.length p0)) - 1)
    with (Z.of_nat (String.length p0)) by lia.
  assert (H0 : (Z.of_nat (String.length p0) <? 0) = false)
    by (apply Z.ltb_ge; lia).
  cbv zeta. rewrite H0, Nat2Z.id. apply take_snoc.
Qed.

Section LinkMore.
Context (sh : Shell).

(** X14: [is_linked] runs [npm ls -g --depth=0 --link=true] in the package
    path and answers whether the path, one trailing slash dropped, occurs in
    the text of the output; it changes nothing.  When the command fails the
    query ends in its exception. *)
Theorem is_linked_answer (self : PackageManager) (p0 : string) (c : ascii)
    (w : World) :
  let dir := p0 ++ String c "" in
  let cmd := ["npm"; "ls"; "-g"; "--depth=0"; "--link=true"] in
  let w' := {| env := env w; cache := cache w;
               trace := (trace w ++ [EvCheckOutput cmd dir])%list |} in
  _path self = Some dir →
  (∀ out, check_output sh cmd dir (env w) = Ok out →
          is_linked sh self w
          = (Ok (PyStr.contains (if Ascii.eqb c "/" then p0 else dir) out), w'))
  ∧ (∀ x, check_output sh cmd dir (env w) = Raise x →
          is_linked sh self w = (Raise x, w')).
Proof.
  intros dir cmd w' Hp. split.
  - intros out Hout. unfold is_linked, self_path. rewrite Hp.
    cbn [of_option]. erewrite bind_ok by reflexivity.
    erewrite bind_ok; cycle 1.
    { unfold run_check_output. erewrite bind_ok by reflexivity.
      unfold lift_env. cbn [env]. fold cmd. rewrite Hout. reflexivity. }
    erewrite bind_ok by reflexivity.
    erewrite bind_ok by apply strip_slash_snoc.
    reflexivity.
  - intros x Hx. unfold is_linked, self_path. rewrite Hp.
    cbn [of_option]. erewrite bind_ok by reflexivity.
    erewrite bind_raise; [reflexivity |].
    unfold run_check_output. erewrite bind_ok by reflexivity.
    unfold lift_env. cbn [env]. fold cmd. rewrite Hx. reflexivity.
Qed.

(** X15: [is_linked_to] with a path that is not empty runs [npm list] in
    the [react] directory of the package and answers whether a piece of the
    output text, cut at each backslash-n, holds both the name of the
    other package and its path, one trailing slash dropped; it changes
    nothing.  When the command fails the query ends in its exception,
    whatever the path. *)
Theorem is_linked_to_answer (self : PackageManager) (dir other p0 : string)
    (c : ascii) (w : World) :
  let other_path := p0 ++ String c "" in
  let cmd := ["npm"; "list"] in
  let cwd := PyStr.path_join dir "react" in
  let w' := {| env := env w; cache := cache w;
               trace := (trace w ++ [EvCheckOutput cmd cwd])%list |} in
  _path self = Some dir →
  (∀ out, check_output sh cmd cwd (env w) = Ok out →
          is_linked_to sh self other other_path w
          = (Ok (existsb
                   (λ line,
                      PyStr.contains other line
                      && PyStr.contains
                           (if Ascii.eqb c "/" then p0 else other_path) line)
                   (PyStr.split "\n" out)), w'))
  ∧ (∀ x any_path, check_output sh cmd cwd (env w) = Raise x →
          is_linked_to sh self other any_path w = (Raise x, w')).
Proof.
  intros other_path cmd cwd w' Hp. split.
  - intros out Hout. unfold is_linked_to, self_path. rewrite Hp.
    cbn [of_option]. erewrite bind_ok by reflexivity.
    erewrite bind_ok; cycle 1.
    { unfold run_check_output. erewrite bind_ok by reflexivity.
      unfold lift_env. cbn [env]. fold cmd cwd. rewrite Hout. reflexivity. }
    erewrite bind_ok by apply strip_slash_snoc.
    unfold ret. f_equal. f_equal.
    assert (Hne : String.eqb other_path "" = false).
    { subst other_path. destruct p0; reflexivity. }
    rewrite Hne.
    induction (PyStr.split "\n" out) as [| line l IH]; cbn [existsb];
      [reflexivity |].
    now rewrite IH, orb_false_r.
  - intros x any_path Hx. unfold is_linked_to, self_path. rewrite Hp.
    cbn [of_option]. erewrite bind_ok by reflexivity.
    erewrite bind_raise; [reflexivity |].
    unfold run_check_output. erewrite bind_ok by reflexivity.
    unfold lift_env. cbn [env]. fold cmd cwd. rewrite Hx. reflexivity.
Qed.

End LinkMore.

Lemma is_linked_answer_witness :
  is_linked sample_shell foo_manager (sample_world None)
  = (Ok true,
     {| env := sample_env None; cache := ∅;
        trace := [EvCheckOutput ["npm"; "ls"; "-g"; "--depth=0"; "--link=true"]
                    "/ws/foo"] |}).
Proof.
  destruct (is_linked_answer sample_shell foo_manager "/ws/fo" "o"
              (sample_world None) eq_refl) as [H _].
  etransitivity; [exact (H sample_listing eq_refl) |].
  vm_compute. reflexivity.
Defined.

Lemma is_linked_to_answer_witness :
  is_linked_to sample_shell foo_manager "bar" "/ws/bar/" (sample_world None)
  = (Ok true,
     {| env := sample_env None; cache := ∅;
        trace := [EvCheckOutput ["npm"; "list"] "/ws/foo/react"] |}).
Proof.
  destruct (is_linked_to_answer sample_shell foo_manager "/ws/foo" "bar"
              "/ws/bar" "/" (sample_world None) eq_refl) as [H _].
  etransitivity; [exact (H sample_listing eq_refl) |].
  vm_compute. reflexivity.
Defined.

(** ** The membership test *)

Lemma prefix_append (p t : string) : String.prefix p (p ++ t) = true.
Proof.
  induction p as [| a p IH].
  - destruct t; reflexivity.
  - rewrite append_cons. simpl.
    destruct (Ascii.ascii_dec a a) as [_ | Hne]; [exact IH | contradiction].
Qed.

Lemma contains_unfold (sub s : string) :
  PyStr.contains sub s
  = String.prefix sub s
    || match s with
       | EmptyString => false
       | String _ s' => PyStr.contains sub s'
       end.
Proof. destruct s; reflexivity. Qed.

(** X18: the membership test of the link queries, [sub in s], is true
    exactly when [sub] occurs in [s]: when [s] is some text, then [sub],
    then some text. *)
Theorem contains_occurs (sub s : string) :
  PyStr.contains sub s = true ↔ ∃ a b, s = a ++ sub ++ b.
Proof.
  split.
  - induction s as [| c s IH]; rewrite contains_unfold; intros H.
    + rewrite orb_false_r in H. apply prefix_split in H as [t Ht].
      exists "", t. exact Ht.
    + apply orb_true_iff in H as [H | H].
      * apply prefix_split in H as [t Ht]. exists "", t. exact Ht.
      * destruct (IH H) as (a & b & ->). exists (String c a), b. reflexivity.
  - intros (a & b & ->). induction a as [| c a IH].
    + rewrite contains_unfold.
      change ("" ++ sub ++ b) with (sub ++ b).
      now rewrite prefix_append.
    + rewrite contains_unfold, append_cons, IH. apply orb_true_r.
Qed.

Lemma contains_occurs_witness :
  PyStr.contains "bar" "+-- bar@2.0.0" = true.
Proof. apply contains_occurs. exists "+-- ", "@2.0.0". reflexivity. Defined.
